(** * wirnn-service: the EFD client (src/wirnnservice/domain/efd_utils.py)

    A shallow embedding of [EfdClient]: the credential lookup, the HTTP
    query, schema introspection, the query builder of
    [select_time_series] and the conversion of a series to a data frame.

    Python exceptions are values of [exn]; a method that may raise returns
    [result].  The HTTP transport ([requests.get]), [urljoin],
    [astropy.time.Time] and [pandas.to_datetime] are interfaces of the
    environment, gathered in type classes. *)

From Stdlib Require Import ZArith List String Ascii Bool Lia DecimalString.
Import ListNotations.
Local Open Scope string_scope.

Set Implicit Arguments.

(** ** Python exceptions and results *)

Module Py.

#[warnings="-register-all"]
Inductive exn : Type :=
| RequestException (detail : string)
    (* a failure raised by requests.get itself: connection, timeout, ... *)
| HTTPError (status : Z)
    (* raised by Response.raise_for_status *)
| JSONDecodeError
    (* raised by Response.json; a RequestException in requests *)
| RuntimeError (msg : string) (cause : option exn)
    (* raise RuntimeError(msg) [from cause] *)
| KeyError (key : string)
| IndexError
| ValueError (msg : string)
| TypeError (msg : string).

Inductive result (A : Type) : Type :=
| Ok (a : A)
| Raise (e : exn).

Arguments Ok {A} a.
Arguments Raise {A} e.

Definition bind {A B : Type} (r : result A) (k : A -> result B) : result B :=
  match r with
  | Ok a => k a
  | Raise e => Raise e
  end.

(** [except requests.exceptions.RequestException]: the classes this
    handler catches. *)
Definition is_RequestException (e : exn) : bool :=
  match e with
  | RequestException _ | HTTPError _ | JSONDecodeError => true
  | _ => false
  end.

(** [d[key]] on a dict with string keys. *)
Fixpoint getitem {V : Type} (d : list (string * V)) (key : string) : result V :=
  match d with
  | [] => Raise (KeyError key)
  | (k, v) :: d' => if String.eqb k key then Ok v else getitem d' key
  end.

(** [l[0]] on a list. *)
Definition first {A : Type} (l : list A) : result A :=
  match l with
  | [] => Raise IndexError
  | x :: _ => Ok x
  end.

(** [d[key]] where the key may be absent from the document. *)
Definition field {A : Type} (key : string) (o : option A) : result A :=
  match o with
  | Some a => Ok a
  | None => Raise (KeyError key)
  end.

(** [sep.join(parts)]. *)
Fixpoint join (sep : string) (parts : list string) : string :=
  match parts with
  | [] => ""
  | [p] => p
  | p :: ps => p ++ sep ++ join sep ps
  end.

(** [f"{n}"] for an int. *)
Definition str_of_int (n : Z) : string := NilZero.string_of_int (Z.to_int n).

(** The double quote character. *)
Definition dquote : string := String (ascii_of_nat 34) EmptyString.

End Py.

Import Py.

Declare Scope py_scope.
Notation "x <- c ;; k" := (Py.bind c (fun x => k))
  (at level 61, c at next level, right associativity) : py_scope.
Local Open Scope py_scope.

(** ** The documents the InfluxDB query endpoint returns

    [{results: [{series: [{columns, values, tags?, name?}]}]}], or
    [{results: [{}]}] for an empty result set.  A key that may be missing
    is an [option]. *)

Module Influx.

(** A scalar of a JSON document. *)
Inductive cell : Type :=
| CNull
| CBool (b : bool)
| CInt (n : Z)
| CFloat (literal : string)
| CStr (s : string).

Definition cell_is_str (c : cell) (s : string) : bool :=
  match c with
  | CStr t => String.eqb t s
  | _ => false
  end.

(** A series of a result; the tags of InfluxDB are strings. *)
Record Series : Type := mkSeries {
  s_columns : option (list string);
  s_values : option (list (list cell));
  s_tags : option (list (string * string));
  s_name : option string
}.

Record Statement : Type := mkStatement {
  st_series : option (list Series)
}.

Record Document : Type := mkDocument {
  d_results : option (list Statement)
}.

End Influx.

Import Influx.

(** ** requests *)

Module Requests.

(** [timeout=30] or [timeout=(30, 120)], in seconds. *)
Inductive timeout : Type :=
| Seconds (s : Z)
| ConnectRead (connect read : Z).

Record request : Type := mkRequest {
  rq_url : string;
  rq_params : list (string * string);
  rq_auth : option (string * string);
  rq_timeout : timeout
}.

(** A response: its status code and what [Response.json()] gives,
    [None] when the body is not JSON. *)
Record response (B : Type) : Type := mkResponse {
  status_code : Z;
  json_body : option B
}.

Inductive outcome (B : Type) : Type :=
| Failed (detail : string)      (* requests.get raised *)
| Responded (r : response B).

Arguments Failed {B} detail.
Arguments Responded {B} r.

(** [requests.get] against an endpoint serving documents of type [B]. *)
Class Transport (B : Type) : Type :=
  requests_get : request -> outcome B.

Definition get {B : Type} `{Transport B} (rq : request) : result (response B) :=
  match requests_get rq with
  | Failed detail => Raise (RequestException detail)
  | Responded r => Ok r
  end.

(** [Response.raise_for_status()]: HTTPError for a 4xx or 5xx status. *)
Definition raise_for_status {B : Type} (r : response B) : result unit :=
  if ((400 <=? status_code r) && (status_code r <? 600))%Z
  then Raise (HTTPError (status_code r))
  else Ok tt.

(** [Response.json()]. *)
Definition json {B : Type} (r : response B) : result B :=
  match json_body r with
  | Some b => Ok b
  | None => Raise JSONDecodeError
  end.

End Requests.

Import Requests.

(** ** pandas: the part of [DataFrame] that [to_dataframe] uses

    A frame holds its column labels, its row index and its rows, each row
    aligned with the column labels.  Cells are kept as received: the
    per-column dtype inference of pandas is not part of the model. *)

Module Pandas.

(** [pandas.to_datetime] on a column of cells. *)
Class Datetimes : Type := {
  Timestamp : Type;
  to_datetime : list cell -> result (list Timestamp)
}.

Section Frames.
Context `{Datetimes}.

Inductive label : Type :=
| Position (i : nat)        (* an entry of a RangeIndex *)
| Instant (t : Timestamp).  (* an entry of a DatetimeIndex *)

Record DataFrame : Type := mkFrame {
  columns : list string;
  index : list label;
  index_name : option string;
  rows : list (list cell);
  name : option string      (* the attribute set by [data.name = ...] *)
}.

(** [data[key]] yields a Series when one column carries the label and
    a frame of the matching columns when several do. *)
Inductive selection : Type :=
| ASeries (label_ : string) (values : list cell)
| AFrame (width : nat).

(** [pd.DataFrame()]. *)
Definition DataFrame_empty : DataFrame :=
  mkFrame [] [] None [] None.

Definition width (values : list (list cell)) : nat :=
  fold_right (fun row w => Nat.max (List.length row) w) 0%nat values.

Definition pad (w : nat) (row : list cell) : list cell :=
  (row ++ repeat CNull (w - List.length row))%list.

(** [pd.DataFrame(values, columns=columns)] for a list of rows: short
    rows are filled with nulls up to the longest one, and the number
    of labels must be that width. *)
Definition DataFrame_new (values : list (list cell)) (cols : list string)
  : result DataFrame :=
  match values with
  | [] => Ok (mkFrame cols [] None [] None)
  | _ :: _ =>
      let w := width values in
      if Nat.eqb w (List.length cols)
      then Ok (mkFrame cols (map Position (seq 0 (List.length values))) None
                       (map (pad w) values) None)
      else Raise (ValueError
             (str_of_int (Z.of_nat (List.length cols)) ++ " columns passed, passed data had "
              ++ str_of_int (Z.of_nat w) ++ " columns"))
  end.

(** [key in data.columns]. *)
Definition contains (data : DataFrame) (key : string) : bool :=
  existsb (String.eqb key) (columns data).

(** The cell of [row] under the first column labelled [key]. *)
Fixpoint cell_at (key : string) (cols : list string) (row : list cell) : cell :=
  match cols, row with
  | c :: cols', x :: row' => if String.eqb c key then x else cell_at key cols' row'
  | _, _ => CNull
  end.

(** [data[key]]. *)
Definition getitem (data : DataFrame) (key : string) : result selection :=
  match count_occ string_dec (columns data) key with
  | O => Raise (KeyError key)
  | S O => Ok (ASeries key (map (cell_at key (columns data)) (rows data)))
  | n => Ok (AFrame n)
  end.

(** [pd.to_datetime(selection)]: a frame selected by one label has that
    label on every column, and a frame with repeated labels is refused. *)
Definition to_datetime_of (sel : selection) : result (string * list Timestamp) :=
  match sel with
  | ASeries l values => ts <- to_datetime values ;; Ok (l, ts)
  | AFrame _ =>
      Raise (ValueError "cannot assemble with duplicate keys")
  end.

(** [data.set_index(series)]: the new index must have one entry per row. *)
Definition set_index (data : DataFrame) (keys : string * list Timestamp)
  : result DataFrame :=
  if Nat.eqb (List.length (snd keys)) (List.length (rows data))
  then Ok (mkFrame (columns data) (map Instant (snd keys)) (Some (fst keys))
                   (rows data) (name data))
  else Raise (ValueError "Length mismatch").

Fixpoint drop_cells (key : string) (cols : list string) (row : list cell) : list cell :=
  match cols, row with
  | c :: cols', x :: row' =>
      if String.eqb c key then drop_cells key cols' row'
      else x :: drop_cells key cols' row'
  | _, _ => []
  end.

(** [data.drop(key, axis=1)]: every column labelled [key] goes. *)
Definition drop (data : DataFrame) (key : string) : result DataFrame :=
  if contains data key
  then Ok (mkFrame (filter (fun c => negb (String.eqb c key)) (columns data))
                   (index data) (index_name data)
                   (map (drop_cells key (columns data)) (rows data)) (name data))
  else Raise (KeyError key).

(** [data.index.name = n]. *)
Definition set_index_name (data : DataFrame) (n : option string) : DataFrame :=
  mkFrame (columns data) (index data) n (rows data) (name data).

Fixpoint assign_cells (key : string) (v : cell) (cols : list string) (row : list cell)
  : list cell :=
  match cols, row with
  | c :: cols', x :: row' =>
      (if String.eqb c key then v else x) :: assign_cells key v cols' row'
  | _, _ => []
  end.

(** [data[key] = v] for a scalar [v]: every column labelled [key] is
    overwritten, and a new last column is added when there is none. *)
Definition setitem (data : DataFrame) (key : string) (v : cell) : DataFrame :=
  if contains data key
  then mkFrame (columns data) (index data) (index_name data)
               (map (assign_cells key v (columns data)) (rows data)) (name data)
  else mkFrame (columns data ++ [key])%list (index data) (index_name data)
               (map (fun row => (row ++ [v])%list) (rows data)) (name data).

(** [data.name = n]: when a column is labelled "name",
    [DataFrame.__setattr__] assigns that column ([data["name"] = n]) and
    sets no attribute; otherwise it sets the attribute. *)
Definition set_name (data : DataFrame) (n : string) : DataFrame :=
  if contains data "name"
  then setitem data "name" (CStr n)
  else mkFrame (columns data) (index data) (index_name data) (rows data) (Some n).

(** [len(data)] and [len(data.columns)]. *)
Definition nrows (data : DataFrame) : nat := List.length (index data).
Definition ncols (data : DataFrame) : nat := List.length (columns data).

End Frames.

End Pandas.

Import Pandas.

(** ** EfdClient *)

Module Efd.

(** The parts of the standard library and of astropy the client calls. *)
Class Library : Type := {
  urljoin : string -> string -> string;  (* urllib.parse.urljoin *)
  Time : Type;                           (* astropy.time.Time *)
  utc_isot : Time -> string              (* t.utc.isot *)
}.

(** The credentials document of the secrets endpoint. *)
Definition Credentials : Type := list (string * string).

Record EfdClient : Type := mkClient {
  _auth : string * string;
  _databaseName : string;
  _databaseUrl : string
}.

(** A field descriptor's type: [np.float64], [np.int64], ["str"],
    ["object"]. *)
Inductive dtype : Type :=
| np_float64
| np_int64
| dt_str
| dt_object.

Section Client.
Context `{Library} `{Datetimes}.
Context {secrets : Transport Credentials} {database : Transport Document}.

Definition service_endpoint : string :=
  "https://roundtable.lsst.codes/segwarides/".

Definition creds_url (instance_alias : string) : string :=
  urljoin service_endpoint ("creds/" ++ instance_alias).

Definition _get_auth (instance_alias : string) : result Credentials :=
  let url := creds_url instance_alias in
  response <- get (mkRequest url [] None (Seconds 30)) ;;
  if (status_code response =? 200)%Z
  then json response
  else Raise (RuntimeError ("Could not connect to " ++ url) None).

(** The request [_get_auth] sends. *)
Definition creds_request (instance_alias : string) : request :=
  mkRequest (creds_url instance_alias) [] None (Seconds 30).

(** [EfdClient.__init__]. *)
Definition init (efd_instance : string) : result EfdClient :=
  auth_dict <- _get_auth efd_instance ;;
  username <- Py.getitem auth_dict "username" ;;
  password <- Py.getitem auth_dict "password" ;;
  host <- Py.getitem auth_dict "host" ;;
  path <- Py.getitem auth_dict "path" ;;
  Ok (mkClient (username, password) "efd" (urljoin ("https://" ++ host) path)).

(** The request [query] sends. *)
Definition query_request (self : EfdClient) (query : string) : request :=
  mkRequest (_databaseUrl self ++ "/query")
            [("db", _databaseName self); ("q", query)]
            (Some (_auth self))
            (ConnectRead 30 120).

Definition query (self : EfdClient) (query : string) : result Document :=
  let attempt :=
    response <- get (query_request self query) ;;
    _ <- raise_for_status response ;;
    json response in
  match attempt with
  | Ok body => Ok body
  | Raise e =>
      if is_RequestException e
      then Raise (RuntimeError
             ("Could not read data from database with query: " ++ query) (Some e))
      else Raise e
  end.

(** The exception [query] raises for a failed read. *)
Definition read_error (q : string) (cause : exn) : exn :=
  RuntimeError ("Could not read data from database with query: " ++ q) (Some cause).

Definition field_dtype (field_type : cell) : dtype :=
  if cell_is_str field_type "float" then np_float64
  else if cell_is_str field_type "integer" then np_int64
  else if cell_is_str field_type "string" then dt_str
  else dt_object.

(** The descriptor appended for the pair [(field_name, field_type)]. *)
Definition descriptor (p : cell * cell) : cell * dtype :=
  (fst p, field_dtype (snd p)).

(** [field_name, field_type = row]. *)
Definition unpack2 (row : list cell) : result (cell * cell) :=
  match row with
  | [field_name; field_type] => Ok (field_name, field_type)
  | [] => Raise (ValueError "not enough values to unpack (expected 2, got 0)")
  | [_] => Raise (ValueError "not enough values to unpack (expected 2, got 1)")
  | _ => Raise (ValueError "too many values to unpack (expected 2)")
  end.

(** The loop over [values], appending to [dtype]. *)
Fixpoint schema_loop (values : list (list cell)) (dtype_ : list (cell * dtype))
  : result (list (cell * dtype)) :=
  match values with
  | [] => Ok dtype_
  | row :: values' =>
      p <- unpack2 row ;;
      schema_loop values' (dtype_ ++ [descriptor p])%list
  end.

Definition schema_query (topic_name : string) : string :=
  "SHOW FIELD KEYS FROM " ++ dquote ++ topic_name ++ dquote.

(** [data["results"][0]["series"][0]["values"]]. *)
Definition schema_values (data : Document) : result (list (list cell)) :=
  results <- field "results" (d_results data) ;;
  statement <- first results ;;
  series <- field "series" (st_series statement) ;;
  s0 <- first series ;;
  field "values" (s_values s0).

Definition get_schema_dtypes (self : EfdClient) (topic_name : string)
  : result (list (cell * dtype)) :=
  data <- query self (schema_query topic_name) ;;
  values <- schema_values data ;;
  schema_loop values [(CStr "time", dt_str)].

Definition get_fields (self : EfdClient) (topic_name : string) : result (list cell) :=
  dtypes <- get_schema_dtypes self topic_name ;;
  Ok (map fst dtypes).

(** The loop [for k, v in series["tags"].items(): data[k] = v]. *)
Definition broadcast_tags (tags : list (string * string)) (data : DataFrame)
  : DataFrame :=
  fold_left (fun d kv => setitem d (fst kv) (CStr (snd kv))) tags data.

(** [series.get("values", [])]. *)
Definition get_values (series : Series) : list (list cell) :=
  match s_values series with
  | Some v => v
  | None => []
  end.

Definition to_dataframe (series : Series) : result DataFrame :=
  let values := get_values series in
  cols <- field "columns" (s_columns series) ;;
  data <- DataFrame_new values cols ;;
  if negb (contains data "time") then Ok data
  else
    sel <- getitem data "time" ;;
    times <- to_datetime_of sel ;;
    data <- set_index data times ;;
    data <- drop data "time" ;;
    let data := set_index_name data None in
    let data := match s_tags series with
                | Some tags => broadcast_tags tags data
                | None => data
                end in
    let data := match s_name series with
                | Some n => set_name data n
                | None => data
                end in
    Ok data.

(** The query string [select_time_series] builds (lines 206-228). *)
Definition select_query (topic_name : string) (fields : option (list string))
    (start_time end_time : option Time) (sal_index : option Z) : string :=
  let query := "SELECT " in
  let query := match fields with
               | None => query ++ "*"
               | Some fs => query ++ join "," fs
               end in
  let query := query ++ " FROM " ++ dquote ++ topic_name ++ dquote in
  let query := match start_time, end_time, sal_index with
               | None, None, None => query
               | _, _, _ => query ++ " WHERE"
               end in
  let query := match start_time with
               | Some t =>
                   let query := query ++ " time >= '" ++ utc_isot t ++ "Z'" in
                   match end_time with
                   | Some _ => query ++ " AND"
                   | None => query
                   end
               | None => query
               end in
  let query := match end_time with
               | Some t => query ++ " time <= '" ++ utc_isot t ++ "Z'"
               | None => query
               end in
  match sal_index with
  | Some n =>
      let query := match start_time, end_time with
                   | None, None => query
                   | _, _ => query ++ " AND"
                   end in
      query ++ " salIndex = " ++ str_of_int n
  | None => query
  end.

Definition select_time_series (self : EfdClient) (topic_name : string)
    (fields : option (list string)) (start_time end_time : option Time)
    (sal_index : option Z) : result DataFrame :=
  let query_ := select_query topic_name fields start_time end_time sal_index in
  body <- query self query_ ;;
  results <- field "results" (d_results body) ;;
  data <- first results ;;
  match st_series data with
  | None => Ok DataFrame_empty
  | Some series_list =>
      series <- first series_list ;;
      to_dataframe series
  end.

End Client.

End Efd.

Import Efd.

(** ** The specification's reading of the query builder and of the type
    mapping, to be compared with the code above *)

Module Spec.

Section Query.
Context `{Library}.

(** [SELECT <"*" or comma-joined fields> FROM "<topic>"]. *)
Definition select_head (topic_name : string) (fields : option (list string)) : string :=
  "SELECT " ++ match fields with None => "*" | Some fs => join "," fs end
            ++ " FROM " ++ dquote ++ topic_name ++ dquote.

Definition start_clause (t : Time) : string := " time >= '" ++ utc_isot t ++ "Z'".
Definition end_clause (t : Time) : string := " time <= '" ++ utc_isot t ++ "Z'".
Definition sal_clause (n : Z) : string := " salIndex = " ++ str_of_int n.

Definition provided {A : Type} (clause : A -> string) (o : option A) : list string :=
  match o with
  | Some a => [clause a]
  | None => []
  end.

(** The clauses of the provided parameters, in the fixed order. *)
Definition clauses (start_time end_time : option Time) (sal_index : option Z)
  : list string :=
  (provided start_clause start_time ++ provided end_clause end_time
     ++ provided sal_clause sal_index)%list.

(** [" WHERE"] when a clause is there, the clauses conjoined by
    [" AND"]. *)
Definition where_part (cs : list string) : string :=
  match cs with
  | [] => ""
  | _ :: _ => " WHERE" ++ join " AND" cs
  end.

Definition select_query (topic_name : string) (fields : option (list string))
    (start_time end_time : option Time) (sal_index : option Z) : string :=
  select_head topic_name fields ++ where_part (clauses start_time end_time sal_index).

End Query.

(** [needle] occurs in [text]. *)
Definition occurs_in (needle text : string) : Prop :=
  exists before after, text = before ++ needle ++ after.

(** ["float"], ["integer"], ["string"], anything else. *)
Definition maps_to (field_type : cell) (d : dtype) : Prop :=
  (field_type = CStr "float" -> d = np_float64) /\
  (field_type = CStr "integer" -> d = np_int64) /\
  (field_type = CStr "string" -> d = dt_str) /\
  (field_type <> CStr "float" -> field_type <> CStr "integer" ->
   field_type <> CStr "string" -> d = dt_object).

(** A raw schema entry [[fieldName, fieldTypeString]] as a row. *)
Definition entry (p : cell * cell) : list cell := [fst p; snd p].

(** Column [key] holds [v] in every row of the frame. *)
Definition column_holds `{Datetimes} (data : DataFrame) (key : string) (v : cell) : Prop :=
  In key (columns data) /\
  forall row i, In row (rows data) ->
                nth_error (columns data) i = Some key ->
                nth_error row i = Some v.

(** Every row has one cell per column. *)
Definition aligned `{Datetimes} (data : DataFrame) : Prop :=
  forall row, In row (rows data) -> List.length row = List.length (columns data).

(** The tags of a series, none when the key is absent. *)
Definition tags_of (series : Series) : list (string * string) :=
  match s_tags series with
  | Some tags => tags
  | None => []
  end.

(** Row [i] of [after] shows under column [c] what row [i] of [before]
    shows. *)
Definition same_column `{Datetimes} (c : string) (before after : DataFrame) : Prop :=
  forall i row,
    nth_error (rows before) i = Some row ->
    exists row', nth_error (rows after) i = Some row'
                 /\ cell_at c (columns after) row' = cell_at c (columns before) row.

End Spec.

(** ** A concrete environment, for running the client *)

Module Sample.

(** [urljoin] as concatenation, which is what urllib gives for a base
    ending in "/" joined with a relative path and for a bare authority
    joined with an absolute path: the two ways the samples use it. *)
Definition library : Library :=
  {| urljoin := fun base rel => base ++ rel;
     Time := string;
     utc_isot := fun t => t |}.

(** A stand-in for the parser of pandas: a string is taken for a date
    when it starts with a digit, numbers are epoch offsets, null is NaT. *)
Definition looks_like_date (s : string) : bool :=
  match s with
  | String c _ => ((48 <=? nat_of_ascii c) && (nat_of_ascii c <=? 57))%nat
  | EmptyString => false
  end.

Definition parse_cell (c : cell) : result string :=
  match c with
  | CStr s =>
      if looks_like_date s then Ok s
      else Raise (ValueError "Unknown datetime string format, unable to parse")
  | CInt n => Ok (str_of_int n)
  | CFloat literal => Ok literal
  | CNull => Ok "NaT"
  | CBool _ => Raise (TypeError "<class 'bool'> is not convertible to datetime")
  end.

Fixpoint iso_strings (cs : list cell) : result (list string) :=
  match cs with
  | [] => Ok []
  | c :: cs' => t <- parse_cell c ;; ts <- iso_strings cs' ;; Ok (t :: ts)
  end.

Definition datetimes : Datetimes :=
  {| Timestamp := string; to_datetime := iso_strings |}.

Definition client : EfdClient :=
  mkClient ("reader", "secret") "efd" "https://db.example.org/influxdb".

(** A transport that gives the same outcome to every request. *)
Definition always {B : Type} (o : outcome B) : Transport B := fun _ => o.

Definition credentials : Credentials :=
  [("username", "reader"); ("password", "secret");
   ("host", "db.example.org"); ("path", "/influxdb")].

Definition schema_document : Document :=
  mkDocument (Some [mkStatement (Some [
    mkSeries (Some ["fieldKey"; "fieldType"])
             (Some [[CStr "temperature"; CStr "float"];
                    [CStr "salIndex"; CStr "integer"];
                    [CStr "state"; CStr "string"];
                    [CStr "flag"; CStr "boolean"]])
             None (Some "lsst.sal.ESS.temperature")])]).

Definition empty_document : Document :=
  mkDocument (Some [mkStatement None]).

Definition no_series_document : Document :=
  mkDocument (Some [mkStatement (Some [])]).

Definition tagged_series : Series :=
  mkSeries (Some ["time"; "v"])
           (Some [[CStr "2021-01-01T00:00:00Z"; CFloat "1.5"];
                  [CStr "2021-01-01T00:00:01Z"; CFloat "2.5"]])
           (Some [("a", "x")]) (Some "topic").

Definition untimed_series : Series :=
  mkSeries (Some ["v"]) (Some [[CInt 1]]) (Some [("a", "x")]) (Some "topic").

Definition schema_entries : list (cell * cell) :=
  [(CStr "temperature", CStr "float"); (CStr "salIndex", CStr "integer");
   (CStr "state", CStr "string"); (CStr "flag", CStr "boolean")].

(** Endpoints answering every request alike. *)
Definition serving (status : Z) (doc : Document) : Transport Document :=
  always (Responded (mkResponse status (Some doc))).

Definition secrets_serving (status : Z) (body : option Credentials)
  : Transport Credentials :=
  always (Responded (mkResponse status body)).

Definition unreachable : Transport Document :=
  always (Failed "Connection refused").

Definition incomplete_credentials : Credentials :=
  [("username", "reader"); ("password", "secret"); ("host", "db.example.org")].

Definition malformed_schema_document : Document :=
  mkDocument (Some [mkStatement (Some [
    mkSeries (Some ["fieldKey"; "fieldType"])
             (Some [[CStr "temperature"; CStr "float"];
                    [CStr "salIndex"; CStr "integer"; CStr "extra"]])
             None None])]).

Definition two_series_document : Document :=
  mkDocument (Some [mkStatement (Some [tagged_series; untimed_series]);
                    mkStatement None]).

Definition two_tag_series : Series :=
  mkSeries (Some ["time"; "v"; "site"])
           (Some [[CStr "2021-01-01T00:00:00Z"; CFloat "1.5"; CStr "old"];
                  [CStr "2021-01-01T00:00:01Z"; CFloat "2.5"]])
           (Some [("site", "summit"); ("a", "x")]) None.

Definition wide_series : Series :=
  mkSeries (Some ["v"]) (Some [[CInt 1; CInt 2]]) None None.

Definition double_time_series : Series :=
  mkSeries (Some ["time"; "time"])
           (Some [[CStr "2021-01-01T00:00:00Z"; CStr "2021-01-01T00:00:01Z"]])
           None None.

Definition unparseable_series : Series :=
  mkSeries (Some ["time"; "v"]) (Some [[CStr "not a time"; CFloat "1.5"]]) None None.

Definition named_column_series : Series :=
  mkSeries (Some ["time"; "name"])
           (Some [[CStr "2021-01-01T00:00:00Z"; CStr "abc"];
                  [CStr "2021-01-01T00:00:01Z"; CStr "def"]])
           None (Some "topic").

End Sample.

(** * Properties *)

(** ** Strings *)

Lemma append_assoc (a b c : string) : (a ++ b) ++ c = a ++ (b ++ c).
Proof.
  induction a as [|x a IH]; simpl; [reflexivity | now rewrite IH].
Qed.

Lemma append_nil_r (a : string) : a ++ "" = a.
Proof.
  induction a as [|x a IH]; simpl; [reflexivity | now rewrite IH].
Qed.

Lemma occurs_at_end (before needle : string) : Spec.occurs_in needle (before ++ needle).
Proof.
  exists before, "". now rewrite append_nil_r.
Qed.

(** ** The query builder *)

Section QueryBuilder.
Context `{Library}.

Lemma select_query_head topic fields :
  select_query topic fields None None None = Spec.select_head topic fields.
Proof.
  unfold select_query, Spec.select_head.
  destruct fields; simpl; reflexivity.
Qed.

(** C7: with fields, start_time, end_time and sal_index all absent the
    query built is exactly [SELECT * FROM "topic"], the topic name in
    double quotes, and this is the [q] parameter of the request sent. *)
Theorem select_query_bare (self : EfdClient) (topic : string) :
  select_query topic None None None None = "SELECT * FROM " ++ dquote ++ topic ++ dquote
  /\ rq_params (query_request self (select_query topic None None None None))
     = [("db", _databaseName self); ("q", "SELECT * FROM " ++ dquote ++ topic ++ dquote)].
Proof.
  split; reflexivity.
Qed.

(** C2: for every combination of start_time, end_time and sal_index the
    query built is the SELECT head followed by [" WHERE"] exactly when a
    parameter is provided, then the clauses of the provided parameters
    in the order start, end, salIndex, with [" AND"] between consecutive
    clauses only; with start_time and sal_index alone it ends in
    [WHERE time >= '<iso>Z' AND salIndex = <n>]. *)
Theorem select_query_where (topic : string) (fields : option (list string))
    (start_time end_time : option Time) (sal_index : option Z) :
  select_query topic fields start_time end_time sal_index
    = Spec.select_query topic fields start_time end_time sal_index
  /\ (Spec.where_part (Spec.clauses start_time end_time sal_index) = ""
      <-> start_time = None /\ end_time = None /\ sal_index = None)
  /\ (forall t n,
        select_query topic fields (Some t) None (Some n)
        = Spec.select_head topic fields
            ++ " WHERE time >= '" ++ utc_isot t ++ "Z' AND salIndex = " ++ str_of_int n).
Proof.
  split; [|split].
  - unfold select_query, Spec.select_query, Spec.select_head, Spec.clauses,
      Spec.where_part, Spec.provided, Spec.start_clause, Spec.end_clause,
      Spec.sal_clause.
    destruct fields, start_time, end_time, sal_index; cbn [app join];
      repeat rewrite append_assoc; repeat rewrite append_nil_r; reflexivity.
  - split.
    + destruct start_time, end_time, sal_index; cbn; intro E;
        try discriminate E; auto.
    + intros (-> & -> & ->). reflexivity.
  - intros t n. unfold select_query, Spec.select_head.
    destruct fields; repeat rewrite append_assoc; reflexivity.
Qed.

End QueryBuilder.

(** ** Credentials and the HTTP query *)

Section Http.
Context `{Library}.
Context {secrets : Transport Credentials} {database : Transport Document}.

(** C6: when the secrets endpoint responds, [_get_auth] returns the
    parsed JSON body if the status is 200 and returns nothing for any
    other status; for every status other than 200, whatever the body, it
    raises the RuntimeError "Could not connect to <url>" (the spec's
    ConnectionError kind), whose message carries the requested URL. *)
Theorem get_auth_by_status (instance_alias : string) (status : Z)
    (body : option Credentials) :
  requests_get (creds_request instance_alias) = Responded (mkResponse status body) ->
  (status = 200%Z -> forall creds, body = Some creds -> _get_auth instance_alias = Ok creds)
  /\ (forall creds, _get_auth instance_alias = Ok creds ->
                    status = 200%Z /\ body = Some creds)
  /\ (status <> 200%Z ->
      _get_auth instance_alias
        = Raise (RuntimeError ("Could not connect to " ++ rq_url (creds_request instance_alias)) None)
      /\ Spec.occurs_in (rq_url (creds_request instance_alias))
                        ("Could not connect to " ++ creds_url instance_alias)).
Proof.
  intro R. unfold _get_auth, get. fold (creds_request instance_alias).
  rewrite R. cbn [bind status_code].
  split; [|split].
  - intros -> creds ->. reflexivity.
  - intros creds. destruct (Z.eqb_spec status 200) as [->|N].
    + unfold json; cbn. destruct body; intro E; inversion E; auto.
    + discriminate.
  - intros N. destruct (Z.eqb_spec status 200) as [E|_]; [contradiction|].
    split; [reflexivity | apply occurs_at_end].
Qed.

Lemma query_transport_failure self q detail :
  requests_get (query_request self q) = Failed detail ->
  query self q = Raise (read_error q (RequestException detail)).
Proof.
  intro R. unfold query, get. rewrite R. reflexivity.
Qed.

Lemma query_response self q status body :
  requests_get (query_request self q) = Responded (mkResponse status body) ->
  query self q =
    if ((400 <=? status) && (status <? 600))%Z
    then Raise (read_error q (HTTPError status))
    else match body with
         | Some doc => Ok doc
         | None => Raise (read_error q JSONDecodeError)
         end.
Proof.
  intro R. unfold query, get, raise_for_status. rewrite R. cbn [bind status_code].
  destruct ((400 <=? status) && (status <? 600))%Z; cbn; [reflexivity|].
  unfold json; cbn. destruct body; reflexivity.
Qed.

(** C5, amended: [query] returns the parsed JSON body as it is when the
    GET succeeds with a 2xx status; when requests.get fails, or the
    status is a 4xx or 5xx one, it raises the RuntimeError (the spec's
    DatabaseReadError kind) whose message ends in the query string and
    whose cause is the underlying exception. *)
Theorem query_outcome (self : EfdClient) (q : string) (o : outcome Document) :
  requests_get (query_request self q) = o ->
  (forall status doc,
      o = Responded (mkResponse status (Some doc)) ->
      (200 <= status < 300)%Z -> query self q = Ok doc)
  /\ (forall detail,
         o = Failed detail ->
         query self q = Raise (read_error q (RequestException detail))
         /\ Spec.occurs_in q ("Could not read data from database with query: " ++ q))
  /\ (forall status body,
         o = Responded (mkResponse status body) ->
         (400 <= status < 600)%Z ->
         query self q = Raise (read_error q (HTTPError status))
         /\ Spec.occurs_in q ("Could not read data from database with query: " ++ q)).
Proof.
  intro R. split; [|split].
  - intros status doc -> Hs. rewrite (query_response R).
    replace ((400 <=? status) && (status <? 600))%Z with false; [reflexivity|].
    symmetry. apply andb_false_iff. left. apply Z.leb_gt. lia.
  - intros detail ->. split; [now apply query_transport_failure | apply occurs_at_end].
  - intros status body -> Hs. rewrite (query_response R).
    replace ((400 <=? status) && (status <? 600))%Z with true;
      [split; [reflexivity | apply occurs_at_end]|].
    symmetry. apply andb_true_iff. split; [apply Z.leb_le | apply Z.ltb_lt]; lia.
Qed.

End Http.

(** ** Schema introspection *)

Section Schema.
Context {database : Transport Document}.

Lemma schema_loop_entries (raw : list (cell * cell)) (acc : list (cell * dtype)) :
  schema_loop (map Spec.entry raw) acc = Ok (acc ++ map descriptor raw)%list.
Proof.
  revert acc. induction raw as [|p raw IH]; intro acc; simpl.
  - now rewrite app_nil_r.
  - rewrite IH, <- app_assoc. reflexivity.
Qed.

Lemma get_schema_dtypes_entries self topic data raw :
  query self (schema_query topic) = Ok data ->
  schema_values data = Ok (map Spec.entry raw) ->
  get_schema_dtypes self topic = Ok ((CStr "time", dt_str) :: map descriptor raw).
Proof.
  intros Q V. unfold get_schema_dtypes. rewrite Q; cbn [bind]. rewrite V; cbn [bind].
  now rewrite schema_loop_entries.
Qed.

Lemma field_dtype_maps_to (field_type : cell) :
  Spec.maps_to field_type (field_dtype field_type).
Proof.
  unfold Spec.maps_to, field_dtype.
  repeat split.
  - intros ->. reflexivity.
  - intros ->. reflexivity.
  - intros ->. reflexivity.
  - intros N1 N2 N3. destruct field_type as [| | | |s]; try reflexivity.
    cbn [cell_is_str].
    destruct (String.eqb_spec s "float") as [->|_]; [now elim N1|].
    destruct (String.eqb_spec s "integer") as [->|_]; [now elim N2|].
    destruct (String.eqb_spec s "string") as [->|_]; [now elim N3|].
    reflexivity.
Qed.

(** C1: when the response to [SHOW FIELD KEYS FROM "T"] carries a raw
    field list at results[0].series[0].values, [get_schema_dtypes]
    returns a list that starts with ("time", "str"), is one longer than
    the raw list, and names the remaining fields in the order of the
    raw list. *)
Theorem get_schema_dtypes_shape (self : EfdClient) (topic : string)
    (data : Document) (raw : list (cell * cell)) :
  query self ("SHOW FIELD KEYS FROM " ++ dquote ++ topic ++ dquote) = Ok data ->
  schema_values data = Ok (map Spec.entry raw) ->
  exists rest,
    get_schema_dtypes self topic = Ok ((CStr "time", dt_str) :: rest)
    /\ List.length ((CStr "time", dt_str) :: rest) = (List.length raw + 1)%nat
    /\ map fst rest = map fst raw.
Proof.
  intros Q V. exists (map descriptor raw).
  split; [now apply get_schema_dtypes_entries with data|].
  split.
  - cbn [List.length]. rewrite length_map. lia.
  - rewrite map_map. reflexivity.
Qed.

(** C8: every raw entry (field name, field type) at position [i] of the
    raw list yields the descriptor at position [i + 1] with the same
    name, whose type is np.float64 for "float", np.int64 for "integer",
    "str" for "string" and "object" for every other field type. *)
Theorem get_schema_dtypes_types (self : EfdClient) (topic : string)
    (data : Document) (raw : list (cell * cell)) :
  query self (schema_query topic) = Ok data ->
  schema_values data = Ok (map Spec.entry raw) ->
  exists dtypes,
    get_schema_dtypes self topic = Ok dtypes
    /\ forall i field_name field_type,
         nth_error raw i = Some (field_name, field_type) ->
         exists d, nth_error dtypes (S i) = Some (field_name, d)
                   /\ Spec.maps_to field_type d.
Proof.
  intros Q V. exists ((CStr "time", dt_str) :: map descriptor raw).
  split; [now apply get_schema_dtypes_entries with data|].
  intros i field_name field_type E.
  exists (field_dtype field_type). split; [|apply field_dtype_maps_to].
  cbn [nth_error]. rewrite nth_error_map, E. reflexivity.
Qed.

End Schema.

(** ** Data frames *)

Section FrameLemmas.
Context `{Datetimes}.

Lemma contains_In (data : DataFrame) (key : string) :
  contains data key = true <-> In key (columns data).
Proof.
  unfold contains. rewrite existsb_exists. split.
  - intros (c & I & E). apply String.eqb_eq in E. now subst.
  - intro I. exists key. split; [assumption | apply String.eqb_refl].
Qed.

Lemma width_bound (values : list (list cell)) (row : list cell) :
  In row values -> (List.length row <= width values)%nat.
Proof.
  induction values as [|r values IH]; simpl; [tauto|].
  intros [->|I]; [lia | specialize (IH I); lia].
Qed.

Lemma pad_length (w : nat) (row : list cell) :
  (List.length row <= w)%nat -> List.length (pad w row) = w.
Proof.
  intro L. unfold pad. rewrite length_app, repeat_length. lia.
Qed.

(** What the constructor builds. *)
Lemma DataFrame_new_Ok values cols data :
  DataFrame_new values cols = Ok data ->
  columns data = cols
  /\ index data = map Position (seq 0 (List.length values))
  /\ index_name data = None
  /\ name data = None
  /\ List.length (rows data) = List.length values
  /\ forall row, In row (rows data) -> List.length row = List.length cols.
Proof.
  unfold DataFrame_new. destruct values as [|r values].
  - intro E; injection E as <-; cbn. repeat split; tauto.
  - remember (r :: values) as vs eqn:EV. cbv zeta.
    destruct (Nat.eqb_spec (width vs) (List.length cols)) as [W|_];
      [|discriminate].
    intro E; injection E as <-; cbn [columns index index_name name rows].
    repeat split.
    + now rewrite length_map.
    + intros row I. apply in_map_iff in I. destruct I as (r0 & <- & I).
      rewrite <- W. apply pad_length. now apply width_bound.
Qed.

Lemma drop_cells_length key cols row :
  List.length row = List.length cols ->
  List.length (drop_cells key cols row)
  = List.length (filter (fun c => negb (String.eqb c key)) cols).
Proof.
  revert row. induction cols as [|c cols IH]; intros [|x row] L;
    simpl in *; try discriminate; [reflexivity|].
  destruct (String.eqb c key); simpl; rewrite IH by lia; reflexivity.
Qed.

Lemma assign_cells_nth key v cols row i :
  List.length row = List.length cols ->
  nth_error cols i = Some key ->
  nth_error (assign_cells key v cols row) i = Some v.
Proof.
  revert row i. induction cols as [|c cols IH]; intros [|x row] [|i] L E;
    simpl in *; try discriminate.
  - inversion E; subst. now rewrite String.eqb_refl.
  - apply IH; [lia | assumption].
Qed.

Lemma appended_label_position key (cols : list string) i :
  ~ In key cols -> nth_error (cols ++ [key]) i = Some key -> i = List.length cols.
Proof.
  intros N E. destruct (Nat.lt_ge_cases i (List.length cols)) as [L|G].
  - rewrite nth_error_app1 in E by assumption.
    apply nth_error_In in E. contradiction.
  - destruct (Nat.eq_dec i (List.length cols)) as [->|D]; [reflexivity|].
    assert (O : (List.length (cols ++ [key]) <= i)%nat)
      by (rewrite length_app; simpl; lia).
    apply nth_error_None in O. congruence.
Qed.

(** A scalar assignment writes its value under every column it names
    and keeps the rows aligned and the index as it was. *)
Lemma setitem_holds (data : DataFrame) (key : string) (v : cell) :
  (forall row, In row (rows data) -> List.length row = List.length (columns data)) ->
  Spec.column_holds (setitem data key v) key v
  /\ index (setitem data key v) = index data
  /\ List.length (rows (setitem data key v)) = List.length (rows data).
Proof.
  intro A. unfold setitem, Spec.column_holds.
  destruct (contains data key) eqn:C; cbn [columns rows index].
  - apply contains_In in C. repeat split; [assumption | | now rewrite length_map].
    intros row i I E. apply in_map_iff in I. destruct I as (r & <- & I).
    apply assign_cells_nth; auto.
  - assert (N : ~ In key (columns data)).
    { intro I. apply contains_In in I. congruence. }
    repeat split; [apply in_or_app; right; now left | | now rewrite length_map].
    intros row i I E. apply in_map_iff in I. destruct I as (r & <- & I).
    apply (appended_label_position _ _ N) in E. subst i.
    rewrite <- (A r I). rewrite nth_error_app2 by lia.
    now rewrite Nat.sub_diag.
Qed.

End FrameLemmas.

(** ** Assignments to a frame *)

Section FrameSteps.
Context `{Datetimes}.

Lemma assign_cells_length key v cols row :
  List.length row = List.length cols ->
  List.length (assign_cells key v cols row) = List.length cols.
Proof.
  revert row. induction cols as [|c cols IH]; intros [|x row] L;
    simpl in *; try discriminate; [reflexivity|].
  rewrite IH by lia. reflexivity.
Qed.

Lemma assign_cells_nth_other key v cols row i other :
  other <> key ->
  nth_error cols i = Some other ->
  nth_error (assign_cells key v cols row) i = nth_error row i.
Proof.
  revert row i. induction cols as [|c cols IH]; intros row [|i] N E;
    simpl in E; try discriminate.
  - injection E as ->. destruct row as [|x row]; [reflexivity|]. simpl.
    destruct (String.eqb_spec other key); [contradiction | reflexivity].
  - destruct row as [|x row]; simpl; [now destruct i | now apply IH].
Qed.

Lemma setitem_aligned (data : DataFrame) (key : string) (v : cell) :
  Spec.aligned data -> Spec.aligned (setitem data key v).
Proof.
  unfold Spec.aligned, setitem. intros A row.
  destruct (contains data key); cbn [rows columns]; intro I;
    apply in_map_iff in I; destruct I as (r & <- & I).
  - apply assign_cells_length. auto.
  - rewrite !length_app. cbn. rewrite (A r I). reflexivity.
Qed.

Lemma setitem_keeps (data : DataFrame) (key : string) (v : cell) :
  index (setitem data key v) = index data
  /\ index_name (setitem data key v) = index_name data
  /\ name (setitem data key v) = name data
  /\ List.length (rows (setitem data key v)) = List.length (rows data).
Proof.
  unfold setitem. destruct (contains data key); cbn; rewrite length_map; auto.
Qed.

Lemma setitem_column_In (data : DataFrame) (key : string) (v : cell) (c : string) :
  In c (columns (setitem data key v)) <-> In c (columns data) \/ c = key.
Proof.
  unfold setitem. destruct (contains data key) eqn:C; cbn [columns].
  - apply contains_In in C. split; [tauto|]. intros [I| ->]; assumption.
  - rewrite in_app_iff. simpl. intuition auto.
Qed.

Lemma setitem_other_column (data : DataFrame) (key : string) (v : cell)
    (other : string) (w : cell) :
  Spec.aligned data -> other <> key ->
  Spec.column_holds data other w ->
  Spec.column_holds (setitem data key v) other w.
Proof.
  intros A N (I & Hw). split; [apply setitem_column_In; now left|].
  unfold setitem. destruct (contains data key) eqn:C; cbn [columns rows];
    intros row i Ir E; apply in_map_iff in Ir; destruct Ir as (r & <- & Ir).
  - rewrite (@assign_cells_nth_other key v (columns data) r i other N E). now apply Hw.
  - assert (L : (i < List.length (columns data))%nat).
    { destruct (Nat.lt_ge_cases i (List.length (columns data))) as [L|G]; [exact L|].
      rewrite nth_error_app2 in E by exact G.
      destruct (i - List.length (columns data))%nat as [|j]; simpl in E;
        [injection E as <-; now elim N | now destruct j]. }
    rewrite nth_error_app1 in E by exact L.
    rewrite nth_error_app1 by (rewrite (A r Ir); exact L). now apply Hw.
Qed.

Lemma broadcast_tags_cons (k v : string) (tags : list (string * string))
    (data : DataFrame) :
  broadcast_tags ((k, v) :: tags) data = broadcast_tags tags (setitem data k (CStr v)).
Proof. reflexivity. Qed.

Lemma broadcast_tags_keeps (tags : list (string * string)) (data : DataFrame) :
  Spec.aligned data ->
  Spec.aligned (broadcast_tags tags data)
  /\ index (broadcast_tags tags data) = index data
  /\ index_name (broadcast_tags tags data) = index_name data
  /\ name (broadcast_tags tags data) = name data
  /\ List.length (rows (broadcast_tags tags data)) = List.length (rows data).
Proof.
  revert data. induction tags as [|[k v] tags IH]; intros data A; [cbn; auto|].
  rewrite !broadcast_tags_cons.
  destruct (IH _ (setitem_aligned k (CStr v) A)) as (A' & I & In_ & Nm & L).
  destruct (setitem_keeps data k (CStr v)) as (I0 & In0 & Nm0 & L0).
  repeat split; [exact A' | congruence ..].
Qed.

Lemma broadcast_tags_column_In (tags : list (string * string)) (data : DataFrame)
    (c : string) :
  In c (columns (broadcast_tags tags data))
  <-> In c (columns data) \/ In c (map fst tags).
Proof.
  revert data. induction tags as [|[k v] tags IH]; intro data.
  - cbn. tauto.
  - rewrite broadcast_tags_cons, IH, setitem_column_In. cbn [map fst In]. split; intros [I|I]; auto.
    + destruct I as [I| ->]; auto.
    + destruct I as [<-|I]; auto.
Qed.

Lemma broadcast_tags_other_column (tags : list (string * string)) (data : DataFrame)
    (other : string) (w : cell) :
  Spec.aligned data -> ~ In other (map fst tags) ->
  Spec.column_holds data other w ->
  Spec.column_holds (broadcast_tags tags data) other w.
Proof.
  revert data. induction tags as [|[k v] tags IH]; intros data A N Hw; [exact Hw|].
  rewrite broadcast_tags_cons.
  simpl in N. apply IH.
  - now apply setitem_aligned.
  - tauto.
  - apply setitem_other_column; [exact A | intros ->; tauto | exact Hw].
Qed.

Lemma broadcast_tags_holds (tags : list (string * string)) (data : DataFrame)
    (key value : string) :
  NoDup (map fst tags) -> In (key, value) tags -> Spec.aligned data ->
  Spec.column_holds (broadcast_tags tags data) key (CStr value).
Proof.
  revert data. induction tags as [|[k v] tags IH]; intros data D I A; [destruct I|].
  rewrite broadcast_tags_cons. simpl in D. inversion D as [|? ? Nk D']; subst.
  destruct I as [E|I].
  - injection E as -> ->.
    apply broadcast_tags_other_column; [now apply setitem_aligned | exact Nk|].
    apply setitem_holds. exact A.
  - apply IH; [exact D' | exact I | now apply setitem_aligned].
Qed.

Lemma set_name_keeps (data : DataFrame) (n : string) :
  Spec.aligned data ->
  Spec.aligned (set_name data n)
  /\ columns (set_name data n) = columns data
  /\ index (set_name data n) = index data
  /\ index_name (set_name data n) = index_name data
  /\ List.length (rows (set_name data n)) = List.length (rows data).
Proof.
  intro A. unfold set_name. destruct (contains data "name") eqn:C.
  - destruct (setitem_keeps data "name" (CStr n)) as (I & In_ & _ & L).
    split; [now apply setitem_aligned|]. split; [|auto].
    unfold setitem. rewrite C. reflexivity.
  - cbn. auto.
Qed.

Lemma set_name_other_column (data : DataFrame) (n : string) (other : string) (w : cell) :
  Spec.aligned data -> other <> "name" ->
  Spec.column_holds data other w ->
  Spec.column_holds (set_name data n) other w.
Proof.
  intros A N Hw. unfold set_name. destruct (contains data "name").
  - now apply setitem_other_column.
  - exact Hw.
Qed.

(** The name lands in the column labelled "name" when there is one, and
    in the attribute otherwise. *)
Lemma set_name_lands (data : DataFrame) (n : string) :
  Spec.aligned data ->
  (In "name" (columns data) ->
   name (set_name data n) = name data
   /\ Spec.column_holds (set_name data n) "name" (CStr n))
  /\ (~ In "name" (columns data) ->
      name (set_name data n) = Some n /\ rows (set_name data n) = rows data).
Proof.
  intro A. unfold set_name. split; intro I.
  - apply contains_In in I. rewrite I.
    destruct (setitem_keeps data "name" (CStr n)) as (_ & _ & Nm & _).
    split; [exact Nm | now apply setitem_holds].
  - destruct (contains data "name") eqn:C; [apply contains_In in C; contradiction|].
    cbn. auto.
Qed.

End FrameSteps.

Section Conversion.
Context `{Datetimes}.

(** C3: when the columns of a series do not contain "time",
    [to_dataframe] returns the frame that pd.DataFrame builds from the
    values and the columns, as it is: the result does not depend on the
    tags and name entries, the columns are the ones received, the index
    is the default positional one and no name is attached. *)
Theorem to_dataframe_without_time (series : Series) (cols : list string) :
  s_columns series = Some cols ->
  ~ In "time" cols ->
  to_dataframe series = DataFrame_new (get_values series) cols
  /\ (forall tags name_,
        to_dataframe (mkSeries (s_columns series) (s_values series) tags name_)
        = to_dataframe series)
  /\ (forall data,
        to_dataframe series = Ok data ->
        columns data = cols
        /\ index data = map Position (seq 0 (List.length (get_values series)))
        /\ index_name data = None
        /\ name data = None).
Proof.
  intros C N.
  assert (G : forall s, s_columns s = Some cols ->
                        to_dataframe s = DataFrame_new (get_values s) cols).
  { intros s Cs. unfold to_dataframe. rewrite Cs. cbn [field bind].
    destruct (DataFrame_new (get_values s) cols) as [data|e] eqn:D; [|reflexivity].
    cbn [bind]. destruct (DataFrame_new_Ok _ _ D) as (Dc & _).
    destruct (contains data "time") eqn:T; [|reflexivity].
    apply contains_In in T. rewrite Dc in T. contradiction. }
  split; [now apply G|]. split.
  - intros tags name_. rewrite (G series C). rewrite G by exact C. reflexivity.
  - intros data E. rewrite (G series C) in E.
    destruct (DataFrame_new_Ok _ _ E) as (Dc & Di & Dn & Dm & _). auto.
Qed.

(** The frame [to_dataframe] returns for a series with a "time" column. *)
Lemma to_dataframe_with_time (series : Series) (cols : list string) (data : DataFrame) :
  s_columns series = Some cols ->
  In "time" cols ->
  to_dataframe series = Ok data ->
  exists data0 data1 times,
    DataFrame_new (get_values series) cols = Ok data0
    /\ set_index data0 times = Ok data1
    /\ exists data2,
         drop data1 "time" = Ok data2
         /\ data =
            (fun d => match s_name series with Some n => set_name d n | None => d end)
              ((fun d => match s_tags series with
                         | Some tags => broadcast_tags tags d
                         | None => d
                         end) (set_index_name data2 None)).
Proof.
  intros C I. unfold to_dataframe. rewrite C. cbn [field bind].
  destruct (DataFrame_new (get_values series) cols) as [data0|e] eqn:D; [|discriminate].
  cbn [bind]. destruct (DataFrame_new_Ok _ _ D) as (Dc & _).
  assert (T : contains data0 "time" = true) by (apply contains_In; now rewrite Dc).
  rewrite T. cbn [negb].
  destruct (getitem data0 "time") as [sel|e]; [|discriminate]. cbn [bind].
  destruct (to_datetime_of sel) as [times|e]; [|discriminate]. cbn [bind].
  destruct (set_index data0 times) as [data1|e] eqn:S1; [|discriminate]. cbn [bind].
  destruct (drop data1 "time") as [data2|e] eqn:S2; [|discriminate]. cbn [bind].
  intro E. injection E as <-.
  exists data0, data1, times. split; [reflexivity|]. split; [assumption|].
  exists data2. split; [assumption | reflexivity].
Qed.

Lemma set_index_Ok data keys data1 :
  set_index data keys = Ok data1 ->
  columns data1 = columns data /\ rows data1 = rows data
  /\ List.length (index data1) = List.length (rows data).
Proof.
  unfold set_index.
  destruct (Nat.eqb_spec (List.length (snd keys)) (List.length (rows data))) as [L|_];
    [|discriminate].
  intro E; injection E as <-; cbn. rewrite length_map. auto.
Qed.

Lemma drop_Ok data key data2 :
  (forall row, In row (rows data) -> List.length row = List.length (columns data)) ->
  drop data key = Ok data2 ->
  index data2 = index data
  /\ List.length (rows data2) = List.length (rows data)
  /\ forall row, In row (rows data2) -> List.length row = List.length (columns data2).
Proof.
  intro A. unfold drop. destruct (contains data key); [|discriminate].
  intro E; injection E as <-; cbn. rewrite length_map. repeat split.
  intros row I. apply in_map_iff in I. destruct I as (r & <- & I).
  apply drop_cells_length. auto.
Qed.

(** With one "time" column, a frame built and the time column parsed,
    [to_dataframe] returns a frame. *)
Lemma to_dataframe_returns (series : Series) (cols : list string) (data0 : DataFrame)
    (times : list Timestamp) :
  s_columns series = Some cols ->
  count_occ string_dec cols "time" = 1%nat ->
  DataFrame_new (get_values series) cols = Ok data0 ->
  to_datetime (map (cell_at "time" cols) (rows data0)) = Ok times ->
  List.length times = List.length (get_values series) ->
  exists data, to_dataframe series = Ok data.
Proof.
  intros C One D P L.
  destruct (DataFrame_new_Ok _ _ D) as (Dc & _ & _ & _ & Dl & _).
  assert (I : In "time" cols) by (apply (count_occ_In string_dec); lia).
  assert (T : contains data0 "time" = true) by (apply contains_In; now rewrite Dc).
  unfold to_dataframe. rewrite C. cbn [field bind]. rewrite D. cbn [bind].
  rewrite T. cbn [negb]. unfold getitem. rewrite Dc, One. cbn [bind to_datetime_of].
  rewrite P. cbn [bind]. unfold set_index. cbn [snd fst].
  replace (Nat.eqb (List.length times) (List.length (rows data0))) with true
    by (symmetry; apply Nat.eqb_eq; lia).
  cbn [bind]. unfold drop, contains. cbn [columns]. fold (contains data0 "time").
  rewrite T. cbn [bind]. eexists. reflexivity.
Qed.

(** C9, amended: for a series whose columns contain "time" and whose
    tags are {a: x}, where a is not "name" or the series has no name
    entry, the frame [to_dataframe] returns holds x under column a in
    every row; and the frame has as many rows as the series has values. *)
Theorem to_dataframe_tag_broadcast (series : Series) (cols : list string)
    (a x : string) (data : DataFrame) :
  s_columns series = Some cols ->
  In "time" cols ->
  s_tags series = Some [(a, x)] ->
  to_dataframe series = Ok data ->
  (a <> "name" \/ s_name series = None -> Spec.column_holds data a (CStr x))
  /\ nrows data = List.length (get_values series)
  /\ List.length (rows data) = List.length (get_values series).
Proof.
  intros C I Tg E.
  destruct (to_dataframe_with_time _ C I E)
    as (data0 & data1 & times & D & S1 & data2 & S2 & ->).
  destruct (DataFrame_new_Ok _ _ D) as (Dc & _ & _ & _ & Dl & Da).
  destruct (set_index_Ok _ _ S1) as (C1 & R1 & L1).
  assert (A1 : forall row, In row (rows data1) ->
                           List.length row = List.length (columns data1)).
  { rewrite C1, R1, Dc. exact Da. }
  destruct (@drop_Ok data1 "time" data2 A1 S2) as (I2 & L2 & A2).
  rewrite Tg. cbn [broadcast_tags fold_left fst snd].
  destruct (@setitem_holds _ (set_index_name data2 None) a (CStr x) A2) as (Hc & Hi & Hl).
  assert (At : Spec.aligned (setitem (set_index_name data2 None) a (CStr x)))
    by (apply setitem_aligned; exact A2).
  cbn [set_index_name index rows] in Hi, Hl.
  assert (Li : List.length (index data2) = List.length (get_values series))
    by (rewrite I2, L1; exact Dl).
  assert (Lr : List.length (rows data2) = List.length (get_values series))
    by (rewrite L2, R1; exact Dl).
  unfold nrows. destruct (s_name series) as [n|].
  - destruct (set_name_keeps n At) as (_ & _ & Ki & _ & Kl).
    rewrite Ki, Kl, Hi, Hl. split; [|split; assumption].
    intros [N|N]; [|discriminate N].
    now apply set_name_other_column.
  - rewrite Hi, Hl. split; [intros _; exact Hc | split; assumption].
Qed.

End Conversion.

(** ** select_time_series *)

Section Select.
Context `{Library} `{Datetimes}.
Context {database : Transport Document}.

Lemma select_time_series_statement self topic fields start_time end_time sal_index
    body statement others :
  query self (select_query topic fields start_time end_time sal_index) = Ok body ->
  d_results body = Some (statement :: others) ->
  select_time_series self topic fields start_time end_time sal_index
  = match st_series statement with
    | None => Ok DataFrame_empty
    | Some series_list => series <- first series_list ;; to_dataframe series
    end.
Proof.
  intros Q R. unfold select_time_series. rewrite Q. cbn [bind]. rewrite R. reflexivity.
Qed.

(** C4: when results[0] of the response has no "series" key,
    [select_time_series] returns an empty frame: no rows, no columns. *)
Theorem select_time_series_no_series_key (self : EfdClient) (topic : string)
    (fields : option (list string)) (start_time end_time : option Time)
    (sal_index : option Z) (body : Document) (statement : Statement)
    (others : list Statement) :
  query self (select_query topic fields start_time end_time sal_index) = Ok body ->
  d_results body = Some (statement :: others) ->
  st_series statement = None ->
  exists data,
    select_time_series self topic fields start_time end_time sal_index = Ok data
    /\ nrows data = 0%nat /\ ncols data = 0%nat
    /\ rows data = [] /\ columns data = [].
Proof.
  intros Q R S. exists DataFrame_empty.
  rewrite (select_time_series_statement _ _ _ _ _ _ Q R), S.
  repeat split.
Qed.

(** C10: when results[0] of the response has a "series" key whose value
    is the empty list, [select_time_series] returns no frame: indexing
    series[0] raises IndexError. *)
Theorem select_time_series_empty_series (self : EfdClient) (topic : string)
    (fields : option (list string)) (start_time end_time : option Time)
    (sal_index : option Z) (body : Document) (statement : Statement)
    (others : list Statement) :
  query self (select_query topic fields start_time end_time sal_index) = Ok body ->
  d_results body = Some (statement :: others) ->
  st_series statement = Some [] ->
  select_time_series self topic fields start_time end_time sal_index = Raise IndexError
  /\ forall data,
       select_time_series self topic fields start_time end_time sal_index <> Ok data.
Proof.
  intros Q R S.
  rewrite (select_time_series_statement _ _ _ _ _ _ Q R), S.
  split; [reflexivity | discriminate].
Qed.

End Select.

(** ** The theorems at work on the sample environment *)

Import Sample.

Lemma get_schema_dtypes_shape_run :
  exists rest,
    @get_schema_dtypes (serving 200 schema_document) client "lsst.sal.ESS.temperature"
    = Ok ((CStr "time", dt_str) :: rest)
    /\ List.length ((CStr "time", dt_str) :: rest) = 5%nat
    /\ map fst rest = [CStr "temperature"; CStr "salIndex"; CStr "state"; CStr "flag"].
Proof.
  apply (@get_schema_dtypes_shape (serving 200 schema_document) client
           "lsst.sal.ESS.temperature" schema_document schema_entries);
    reflexivity.
Defined.

Lemma get_schema_dtypes_types_run :
  exists dtypes,
    @get_schema_dtypes (serving 200 schema_document) client "lsst.sal.ESS.temperature"
    = Ok dtypes
    /\ forall i field_name field_type,
         nth_error schema_entries i = Some (field_name, field_type) ->
         exists d, nth_error dtypes (S i) = Some (field_name, d)
                   /\ Spec.maps_to field_type d.
Proof.
  apply (@get_schema_dtypes_types (serving 200 schema_document) client
           "lsst.sal.ESS.temperature" schema_document schema_entries);
    reflexivity.
Defined.

Lemma get_auth_by_status_run :
  (forall creds, @_get_auth library (secrets_serving 503 None) "usdf_efd" = Ok creds ->
                 503%Z = 200%Z /\ None = Some creds)
  /\ @_get_auth library (secrets_serving 503 None) "usdf_efd"
     = Raise (RuntimeError
         "Could not connect to https://roundtable.lsst.codes/segwarides/creds/usdf_efd" None).
Proof.
  destruct (@get_auth_by_status library (secrets_serving 503 None) "usdf_efd" 503 None
              eq_refl) as (_ & Only & Fails).
  split; [exact Only|]. apply Fails. discriminate.
Defined.

Lemma query_outcome_run :
  @query (serving 200 schema_document) client "SHOW DATABASES" = Ok schema_document
  /\ @query unreachable client "SHOW DATABASES"
     = Raise (read_error "SHOW DATABASES" (RequestException "Connection refused"))
  /\ @query (serving 404 schema_document) client "SHOW DATABASES"
     = Raise (read_error "SHOW DATABASES" (HTTPError 404)).
Proof.
  split; [|split].
  - apply (proj1 (@query_outcome (serving 200 schema_document) client "SHOW DATABASES"
                    _ eq_refl) 200%Z schema_document eq_refl). lia.
  - apply (proj1 (proj2 (@query_outcome unreachable client "SHOW DATABASES" _ eq_refl))
             "Connection refused" eq_refl).
  - apply (proj2 (proj2 (@query_outcome (serving 404 schema_document) client
                           "SHOW DATABASES" _ eq_refl))
             404%Z (Some schema_document) eq_refl). lia.
Defined.

(** A response with status 300 is not a 2xx one, and [query] returns its
    body instead of raising. *)
Lemma query_returns_body_of_status_300 :
  @requests_get _ (serving 300 empty_document) (query_request client "SHOW DATABASES")
  = Responded (mkResponse 300 (Some empty_document))
  /\ ~ (200 <= 300 < 300)%Z
  /\ @query (serving 300 empty_document) client "SHOW DATABASES" = Ok empty_document
  /\ forall msg cause,
       @query (serving 300 empty_document) client "SHOW DATABASES"
       <> Raise (RuntimeError msg cause).
Proof.
  split; [reflexivity|]. split; [lia|]. split; [reflexivity | discriminate].
Qed.

Lemma to_dataframe_without_time_run :
  @to_dataframe datetimes untimed_series = @DataFrame_new datetimes [[CInt 1]] ["v"]
  /\ (forall data,
        @to_dataframe datetimes untimed_series = Ok data ->
        columns data = ["v"] /\ index data = [Position 0]
        /\ index_name data = None /\ name data = None).
Proof.
  destruct (@to_dataframe_without_time datetimes untimed_series ["v"] eq_refl)
    as (Built & _ & Shape).
  - simpl. intros [E|[]]. discriminate E.
  - split; [exact Built | exact Shape].
Defined.

(** A series without a "time" column keeps its columns: the tag {a: x}
    adds no column a. *)
Lemma to_dataframe_untimed_drops_tags :
  s_tags untimed_series = Some [("a", "x")]
  /\ exists data,
       @to_dataframe datetimes untimed_series = Ok data
       /\ List.length (rows data) = List.length (get_values untimed_series)
       /\ columns data = ["v"]
       /\ ~ @Spec.column_holds datetimes data "a" (CStr "x").
Proof.
  split; [reflexivity|]. eexists. split; [reflexivity|].
  split; [reflexivity|]. split; [reflexivity|].
  intros (I & _). simpl in I. destruct I as [E|[]]. discriminate E.
Qed.

Lemma to_dataframe_tag_broadcast_run :
  exists data,
    @to_dataframe datetimes tagged_series = Ok data
    /\ @Spec.column_holds datetimes data "a" (CStr "x")
    /\ @nrows datetimes data = 2%nat.
Proof.
  eexists. split; [reflexivity|].
  destruct (@to_dataframe_tag_broadcast datetimes tagged_series ["time"; "v"] "a" "x" _
              eq_refl (or_introl eq_refl) eq_refl eq_refl) as (Holds & Rows & _).
  split; [apply Holds; left; discriminate | exact Rows].
Defined.

Lemma select_time_series_no_series_key_run :
  exists data,
    @select_time_series library datetimes (serving 200 empty_document) client
      "lsst.sal.ESS.temperature" None None None None = Ok data
    /\ @nrows datetimes data = 0%nat /\ @ncols datetimes data = 0%nat
    /\ rows data = [] /\ columns data = [].
Proof.
  apply (@select_time_series_no_series_key library datetimes (serving 200 empty_document)
           client "lsst.sal.ESS.temperature" None None None None
           empty_document (mkStatement None) []); reflexivity.
Defined.

Lemma select_time_series_empty_series_run :
  @select_time_series library datetimes (serving 200 no_series_document) client
    "lsst.sal.ESS.temperature" None None None None = Raise IndexError.
Proof.
  apply (@select_time_series_empty_series library datetimes
           (serving 200 no_series_document) client "lsst.sal.ESS.temperature"
           None None None None no_series_document (mkStatement (Some [])) []);
    reflexivity.
Defined.

(** * Further properties of the client *)

(** ** Construction and the two HTTP calls *)

Section Construction.
Context `{Library}.
Context {secrets : Transport Credentials} {database : Transport Document}.

Lemma getitem_Ok_In (V : Type) (d : list (string * V)) (key : string) (v : V) :
  Py.getitem d key = Ok v -> In key (map fst d).
Proof.
  induction d as [|[k w] d IH]; simpl; [discriminate|].
  destruct (String.eqb_spec k key) as [->|_]; [now left | intro E; right; auto].
Qed.

Lemma getitem_Raise (V : Type) (d : list (string * V)) (key : string) (e : exn) :
  Py.getitem d key = Raise e -> e = KeyError key /\ ~ In key (map fst d).
Proof.
  induction d as [|[k w] d IH]; simpl.
  - intro E; injection E as <-. tauto.
  - destruct (String.eqb_spec k key) as [->|N]; [discriminate|].
    intro E. destruct (IH E) as (-> & M). split; [reflexivity|].
    intros [K|K]; [now apply N | now apply M].
Qed.

Lemma get_auth_response alias status body :
  requests_get (B := Credentials) (creds_request alias) = Responded (mkResponse status body) ->
  _get_auth alias =
    if (status =? 200)%Z
    then match body with Some creds => Ok creds | None => Raise JSONDecodeError end
    else Raise (RuntimeError ("Could not connect to " ++ creds_url alias) None).
Proof.
  intro R. unfold _get_auth, get. fold (creds_request alias). rewrite R.
  cbn [bind status_code]. destruct (status =? 200)%Z; [|reflexivity].
  unfold json; cbn. destruct body; reflexivity.
Qed.

Lemma get_auth_transport_failure alias detail :
  requests_get (B := Credentials) (creds_request alias) = Failed detail ->
  _get_auth alias = Raise (RequestException detail).
Proof.
  intro R. unfold _get_auth, get. fold (creds_request alias). rewrite R. reflexivity.
Qed.

(** When the secrets endpoint answers 200 with a document binding
    username, password, host and path, the constructor returns a client
    for the database "efd" with these credentials, and every query of
    that client goes to <urljoin(https://host, path)>/query with the
    parameters db=efd and q=<query>, basic authentication and the
    timeouts (30, 120). *)
Theorem init_builds_client (alias : string) (creds : Credentials)
    (username password host path : string) :
  requests_get (B := Credentials) (creds_request alias) = Responded (mkResponse 200 (Some creds)) ->
  Py.getitem creds "username" = Ok username ->
  Py.getitem creds "password" = Ok password ->
  Py.getitem creds "host" = Ok host ->
  Py.getitem creds "path" = Ok path ->
  exists self,
    init alias = Ok self
    /\ _auth self = (username, password)
    /\ _databaseName self = "efd"
    /\ _databaseUrl self = urljoin ("https://" ++ host) path
    /\ forall q,
         query_request self q
         = mkRequest (urljoin ("https://" ++ host) path ++ "/query")
                     [("db", "efd"); ("q", q)]
                     (Some (username, password)) (ConnectRead 30 120).
Proof.
  intros R U P Ho Pa. eexists. split.
  - unfold init. rewrite (get_auth_response R). cbn [Z.eqb Pos.eqb bind].
    rewrite U, P, Ho, Pa. cbn [bind]. reflexivity.
  - repeat split.
Qed.

(** A credentials document that lacks one of the keys username,
    password, host, path builds no client: the constructor raises
    KeyError for a key of these four that the document does not bind. *)
Theorem init_missing_key (alias : string) (creds : Credentials) (key : string) :
  _get_auth alias = Ok creds ->
  In key ["username"; "password"; "host"; "path"] ->
  ~ In key (map fst creds) ->
  exists missing,
    init alias = Raise (KeyError missing)
    /\ In missing ["username"; "password"; "host"; "path"]
    /\ ~ In missing (map fst creds).
Proof.
  intros A K M. unfold init. rewrite A. cbn [bind].
  destruct (Py.getitem creds "username") as [u|e] eqn:U; cbn [bind];
    [|destruct (getitem_Raise _ _ U) as (-> & N); eexists; split; [reflexivity|];
      split; [simpl; tauto | exact N]].
  destruct (Py.getitem creds "password") as [p|e] eqn:P; cbn [bind];
    [|destruct (getitem_Raise _ _ P) as (-> & N); eexists; split; [reflexivity|];
      split; [simpl; tauto | exact N]].
  destruct (Py.getitem creds "host") as [h|e] eqn:Ho; cbn [bind];
    [|destruct (getitem_Raise _ _ Ho) as (-> & N); eexists; split; [reflexivity|];
      split; [simpl; tauto | exact N]].
  destruct (Py.getitem creds "path") as [pa|e] eqn:Pa; cbn [bind];
    [|destruct (getitem_Raise _ _ Pa) as (-> & N); eexists; split; [reflexivity|];
      split; [simpl; tauto | exact N]].
  exfalso. apply M.
  simpl in K. destruct K as [<-|[<-|[<-|[<-|[]]]]];
    eauto using getitem_Ok_In.
Qed.

(** [_get_auth] fails in three ways only: requests.get raised, and its
    exception reaches the caller as it is; the status is 200 and the body
    is not JSON, and the JSONDecodeError reaches the caller as it is; or
    the status is not 200, and the RuntimeError naming the URL is
    raised. *)
Theorem get_auth_failures (alias : string) (e : exn) :
  _get_auth alias = Raise e ->
  (exists detail,
      requests_get (B := Credentials) (creds_request alias) = Failed detail
      /\ e = RequestException detail)
  \/ (requests_get (B := Credentials) (creds_request alias) = Responded (mkResponse 200 None)
      /\ e = JSONDecodeError)
  \/ (exists status body,
        requests_get (B := Credentials) (creds_request alias) = Responded (mkResponse status body)
        /\ status <> 200%Z
        /\ e = RuntimeError ("Could not connect to " ++ creds_url alias) None).
Proof.
  destruct (requests_get (B := Credentials) (creds_request alias)) as [detail|[status body]] eqn:R.
  - rewrite (get_auth_transport_failure R).
    intro E; injection E as <-. left. eauto.
  - rewrite (get_auth_response R).
    destruct (Z.eqb_spec status 200) as [->|N].
    + destruct body; [discriminate|]. intro E; injection E as <-. right; left. auto.
    + intro E; injection E as <-. right; right. eauto.
Qed.


(** [query] returns a document exactly when the endpoint answered with a
    status outside 400..599 and a JSON body, and the document is that
    body. *)
Theorem query_Ok_iff (self : EfdClient) (q : string) (doc : Document) :
  query self q = Ok doc
  <-> exists status,
        requests_get (B := Document) (query_request self q) = Responded (mkResponse status (Some doc))
        /\ ~ (400 <= status < 600)%Z.
Proof.
  split.
  - destruct (requests_get (B := Document) (query_request self q)) as [detail|[status body]] eqn:R.
    + rewrite (query_transport_failure _ _ R). discriminate.
    + rewrite (query_response _ _ R).
      destruct ((400 <=? status) && (status <? 600))%Z eqn:B; [discriminate|].
      destruct body; [|discriminate]. intro E; injection E as <-.
      exists status. split; [reflexivity|].
      apply andb_false_iff in B. destruct B as [B|B];
        [apply Z.leb_gt in B | apply Z.ltb_ge in B]; lia.
  - intros (status & R & N). rewrite (query_response _ _ R).
    replace ((400 <=? status) && (status <? 600))%Z with false; [reflexivity|].
    symmetry. apply andb_false_iff.
    destruct (Z.leb_spec 400 status); [right; apply Z.ltb_ge; lia | now left].
Qed.

End Construction.

(** ** Field names and malformed schema answers *)

Section SchemaAnswers.
Context {database : Transport Document}.

(** [get_fields] returns "time" followed by the names of the raw field
    list, in the order the database returned them. *)
Theorem get_fields_names (self : EfdClient) (topic : string) (data : Document)
    (raw : list (cell * cell)) :
  query self (schema_query topic) = Ok data ->
  schema_values data = Ok (map Spec.entry raw) ->
  get_fields self topic = Ok (CStr "time" :: map fst raw).
Proof.
  intros Q V. unfold get_fields.
  rewrite (get_schema_dtypes_entries _ _ _ Q V). cbn [bind map fst].
  rewrite map_map. reflexivity.
Qed.

(** For a topic the database knows nothing about (results[0] without a
    "series" key) schema introspection returns no empty schema: both
    [get_schema_dtypes] and [get_fields] raise KeyError("series"). *)
Theorem get_schema_dtypes_unknown_topic (self : EfdClient) (topic : string)
    (data : Document) (statement : Statement) (others : list Statement) :
  query self (schema_query topic) = Ok data ->
  d_results data = Some (statement :: others) ->
  st_series statement = None ->
  get_schema_dtypes self topic = Raise (KeyError "series")
  /\ get_fields self topic = Raise (KeyError "series").
Proof.
  intros Q R S.
  assert (G : get_schema_dtypes self topic = Raise (KeyError "series")).
  { unfold get_schema_dtypes, schema_values. rewrite Q. cbn [bind].
    rewrite R. cbn [field bind first]. rewrite S. reflexivity. }
  split; [exact G|]. unfold get_fields. rewrite G. reflexivity.
Qed.

Lemma schema_loop_bad_row (values : list (list cell)) (row : list cell)
    (acc : list (cell * dtype)) :
  In row values -> List.length row <> 2%nat ->
  exists msg, schema_loop values acc = Raise (ValueError msg).
Proof.
  revert acc. induction values as [|r values IH]; intros acc I L; [destruct I|].
  simpl. destruct r as [|a [|b [|c r]]]; cbn [unpack2 bind]; eauto.
  destruct I as [<-|I]; [now elim L | eauto].
Qed.

(** One malformed entry spoils the schema: when a row of the raw field
    list has not exactly two elements, [get_schema_dtypes] raises
    ValueError and returns no partial list, wherever the row stands. *)
Theorem get_schema_dtypes_bad_row (self : EfdClient) (topic : string)
    (data : Document) (values : list (list cell)) (row : list cell) :
  query self (schema_query topic) = Ok data ->
  schema_values data = Ok values ->
  In row values ->
  List.length row <> 2%nat ->
  exists msg, get_schema_dtypes self topic = Raise (ValueError msg).
Proof.
  intros Q V I L. unfold get_schema_dtypes. rewrite Q. cbn [bind]. rewrite V. cbn [bind].
  now apply schema_loop_bad_row with row.
Qed.

End SchemaAnswers.

(** ** How select_time_series uses the answer *)

Section SelectAnswers.
Context `{Library} `{Datetimes}.
Context {database : Transport Document}.

(** A failure of the transport ends [select_time_series] with the
    RuntimeError of [query], whose message carries the query that was
    built from the arguments. *)
Theorem select_time_series_transport_failure (self : EfdClient) (topic : string)
    (fields : option (list string)) (start_time end_time : option Time)
    (sal_index : option Z) (detail : string) :
  requests_get (B := Document)
    (query_request self (select_query topic fields start_time end_time sal_index))
  = Failed detail ->
  select_time_series self topic fields start_time end_time sal_index
  = Raise (RuntimeError
      ("Could not read data from database with query: "
       ++ Spec.select_query topic fields start_time end_time sal_index)
      (Some (RequestException detail))).
Proof.
  intro R. unfold select_time_series.
  rewrite (query_transport_failure _ _ R). cbn [bind]. unfold read_error.
  f_equal. f_equal. f_equal.
  unfold select_query, Spec.select_query, Spec.select_head, Spec.clauses,
    Spec.where_part, Spec.provided, Spec.start_clause, Spec.end_clause,
    Spec.sal_clause.
  destruct fields, start_time, end_time, sal_index; cbn [app join];
    repeat rewrite append_assoc; repeat rewrite append_nil_r; reflexivity.
Qed.

(** Only the first series of the first statement is converted: with a
    non-empty "series" list in results[0], [select_time_series] is
    [to_dataframe] of its first element, whatever the other series and
    statements are. *)
Theorem select_time_series_first_series (self : EfdClient) (topic : string)
    (fields : option (list string)) (start_time end_time : option Time)
    (sal_index : option Z) (body : Document) (statement : Statement)
    (others : list Statement) (series : Series) (more : list Series) :
  query self (select_query topic fields start_time end_time sal_index) = Ok body ->
  d_results body = Some (statement :: others) ->
  st_series statement = Some (series :: more) ->
  select_time_series self topic fields start_time end_time sal_index
  = to_dataframe series.
Proof.
  intros Q R S.
  rewrite (select_time_series_statement _ _ _ _ _ _ Q R), S. reflexivity.
Qed.

(** A document without a "results" key makes [select_time_series] raise
    KeyError("results"), and one with an empty "results" list makes it
    raise IndexError. *)
Theorem select_time_series_no_results (self : EfdClient) (topic : string)
    (fields : option (list string)) (start_time end_time : option Time)
    (sal_index : option Z) (body : Document) :
  query self (select_query topic fields start_time end_time sal_index) = Ok body ->
  (d_results body = None ->
   select_time_series self topic fields start_time end_time sal_index
   = Raise (KeyError "results"))
  /\ (d_results body = Some [] ->
      select_time_series self topic fields start_time end_time sal_index
      = Raise IndexError).
Proof.
  intro Q. unfold select_time_series. rewrite Q. cbn [bind].
  split; intros ->; reflexivity.
Qed.

(** An empty list of fields is not "all fields": the query then selects
    nothing, [SELECT  FROM "topic"], and only [fields = None] puts the
    star. *)
Theorem select_query_empty_fields (topic : string) (start_time end_time : option Time)
    (sal_index : option Z) :
  select_query topic (Some []) start_time end_time sal_index
  = "SELECT  FROM " ++ dquote ++ topic ++ dquote
      ++ Spec.where_part (Spec.clauses start_time end_time sal_index)
  /\ select_query topic None start_time end_time sal_index
     = "SELECT * FROM " ++ dquote ++ topic ++ dquote
         ++ Spec.where_part (Spec.clauses start_time end_time sal_index).
Proof.
  split;
    unfold select_query, Spec.clauses, Spec.where_part, Spec.provided,
      Spec.start_clause, Spec.end_clause, Spec.sal_clause;
    destruct start_time, end_time, sal_index; cbn [app join];
    repeat rewrite append_assoc; repeat rewrite append_nil_r; reflexivity.
Qed.

End SelectAnswers.

(** ** Frames built by to_dataframe *)

Section FrameResults.
Context `{Datetimes}.

(** The frame once the index is set and the "time" column dropped, before
    tags and name are applied. *)
Lemma to_dataframe_steps (series : Series) (cols : list string) (data : DataFrame) :
  s_columns series = Some cols ->
  In "time" cols ->
  to_dataframe series = Ok data ->
  exists data0 times,
    DataFrame_new (get_values series) cols = Ok data0
    /\ count_occ string_dec cols "time" = 1%nat
    /\ to_datetime (map (cell_at "time" cols) (rows data0)) = Ok times
    /\ List.length times = List.length (rows data0)
    /\ data =
       (fun d => match s_name series with Some n => set_name d n | None => d end)
         (broadcast_tags (Spec.tags_of series)
            (mkFrame (filter (fun c => negb (String.eqb c "time")) cols)
                     (map Instant times) None
                     (map (drop_cells "time" cols) (rows data0)) None)).
Proof.
  intros C I. unfold to_dataframe. rewrite C. cbn [field bind].
  destruct (DataFrame_new (get_values series) cols) as [data0|e] eqn:D; [|discriminate].
  cbn [bind]. destruct (DataFrame_new_Ok _ _ D) as (Dc & _ & _ & Dn & _).
  assert (T : contains data0 "time" = true) by (apply contains_In; now rewrite Dc).
  rewrite T. cbn [negb]. unfold getitem. rewrite Dc.
  destruct (count_occ string_dec cols "time") as [|[|n]] eqn:Cn; cbn [bind to_datetime_of];
    try discriminate.
  destruct (to_datetime (map (cell_at "time" cols) (rows data0))) as [times|e] eqn:P;
    [|discriminate].
  cbn [bind]. unfold set_index. cbn [snd fst].
  destruct (Nat.eqb_spec (List.length times) (List.length (rows data0))) as [L|_];
    [|discriminate].
  cbn [bind]. unfold drop, contains. cbn [columns]. fold (contains data0 "time").
  rewrite T. cbn [bind]. intro E. injection E as <-.
  exists data0, times. repeat (split; [reflexivity || assumption|]).
  unfold Spec.tags_of, set_index_name. cbn [columns index index_name rows name].
  rewrite Dc, Dn. destruct (s_tags series), (s_name series); reflexivity.
Qed.

(** Without a "time" label the frame is the one the constructor built. *)
Lemma to_dataframe_plain (series : Series) (cols : list string) :
  s_columns series = Some cols ->
  ~ In "time" cols ->
  to_dataframe series = DataFrame_new (get_values series) cols.
Proof.
  intros C N. unfold to_dataframe. rewrite C. cbn [field bind].
  destruct (DataFrame_new (get_values series) cols) as [data|e] eqn:D; [|reflexivity].
  cbn [bind]. destruct (DataFrame_new_Ok _ _ D) as (Dc & _).
  destruct (contains data "time") eqn:T; [|reflexivity].
  apply contains_In in T. rewrite Dc in T. contradiction.
Qed.

Lemma dropped_aligned (cols : list string) (rows0 : list (list cell)) (idx : list label) :
  (forall row, In row rows0 -> List.length row = List.length cols) ->
  Spec.aligned (mkFrame (filter (fun c => negb (String.eqb c "time")) cols) idx None
                        (map (drop_cells "time" cols) rows0) None).
Proof.
  intros A row I. cbn [rows columns] in *.
  apply in_map_iff in I. destruct I as (r & <- & I).
  apply drop_cells_length. auto.
Qed.

(** The last step, [data.name = series["name"]] when the key is there. *)
Lemma named_keeps (series : Series) (d : DataFrame) :
  Spec.aligned d ->
  Spec.aligned (match s_name series with Some n => set_name d n | None => d end)
  /\ columns (match s_name series with Some n => set_name d n | None => d end)
     = columns d
  /\ index (match s_name series with Some n => set_name d n | None => d end) = index d
  /\ index_name (match s_name series with Some n => set_name d n | None => d end)
     = index_name d
  /\ List.length (rows (match s_name series with Some n => set_name d n | None => d end))
     = List.length (rows d).
Proof.
  intro A. destruct (s_name series) as [n|]; [now apply set_name_keeps | auto].
Qed.

(** Every frame [to_dataframe] returns is rectangular: each row has one
    cell per column, the index has one entry per row, and there is one
    row per row of values (none when the "values" key is absent). *)
Theorem to_dataframe_aligned (series : Series) (data : DataFrame) :
  to_dataframe series = Ok data ->
  Spec.aligned data
  /\ nrows data = List.length (rows data)
  /\ List.length (rows data) = List.length (get_values series).
Proof.
  intro E. destruct (s_columns series) as [cols|] eqn:C;
    [|unfold to_dataframe in E; rewrite C in E; discriminate E].
  destruct (in_dec string_dec "time" cols) as [I|N].
  - destruct (to_dataframe_steps _ C I E) as (data0 & times & D & _ & _ & L & ->).
    destruct (DataFrame_new_Ok _ _ D) as (_ & _ & _ & _ & Dl & Da).
    destruct (@broadcast_tags_keeps _ (Spec.tags_of series) _
                (dropped_aligned cols (rows data0) (map Instant times) Da))
      as (A & Ix & _ & _ & Lr).
    cbn [index rows] in Ix, Lr. rewrite length_map in Lr.
    destruct (named_keeps series A) as (An & _ & In_ & _ & Ln).
    unfold nrows. split; [exact An|].
    rewrite In_, Ln, Ix, Lr, length_map. split; congruence.
  - rewrite (to_dataframe_plain _ C N) in E.
    destruct (DataFrame_new_Ok _ _ E) as (Dc & Di & _ & _ & Dl & Da).
    split; [unfold Spec.aligned; rewrite Dc; exact Da|]. unfold nrows.
    rewrite Di, length_map, length_seq.
    split; congruence.
Qed.

(** With a "time" column, the index of the returned frame is the parsed
    time column, in row order, and the index carries no name.  The
    "name" entry of the series, if any, becomes the name attribute of the
    frame when no column is labelled "name"; when a column is labelled
    "name" no attribute is set and that column holds the name in every
    row. *)
Theorem to_dataframe_time_index (series : Series) (cols : list string)
    (data : DataFrame) :
  s_columns series = Some cols ->
  In "time" cols ->
  to_dataframe series = Ok data ->
  (exists data0 times,
      DataFrame_new (get_values series) cols = Ok data0
      /\ to_datetime (map (cell_at "time" cols) (rows data0)) = Ok times
      /\ index data = map Instant times)
  /\ index_name data = None
  /\ (~ In "name" (columns data) -> name data = s_name series)
  /\ (In "name" (columns data) ->
      name data = None
      /\ forall n, s_name series = Some n -> Spec.column_holds data "name" (CStr n)).
Proof.
  intros C I E.
  destruct (to_dataframe_steps _ C I E) as (data0 & times & D & _ & P & L & ->).
  destruct (DataFrame_new_Ok _ _ D) as (_ & _ & _ & _ & _ & Da).
  destruct (@broadcast_tags_keeps _ (Spec.tags_of series) _
              (dropped_aligned cols (rows data0) (map Instant times) Da))
    as (A & Ix & In_ & Nm & _).
  cbn [index index_name name] in Ix, In_, Nm.
  destruct (named_keeps series A) as (_ & Kc & Ki & Kn & _).
  split; [exists data0, times; split; [exact D|]; split; [exact P|]; congruence|].
  split; [congruence|]. rewrite Kc.
  destruct (s_name series) as [n|].
  - destruct (set_name_lands n A) as (Col & Attr). split.
    + intro N. exact (proj1 (Attr N)).
    + intro Ic. destruct (Col Ic) as (Nn & Hn). split; [congruence|].
      intros n' En. injection En as <-. exact Hn.
  - split; [intros _; exact Nm|]. intros _. split; [exact Nm | discriminate].
Qed.

(** With a "time" column, every tag of the series is broadcast: for each
    entry k: v of the tags, where k is not "name" or the series has no
    name entry, column k of the returned frame holds v in every row. *)
Theorem to_dataframe_all_tags (series : Series) (cols : list string)
    (tags : list (string * string)) (k v : string) (data : DataFrame) :
  s_columns series = Some cols ->
  In "time" cols ->
  s_tags series = Some tags ->
  NoDup (map fst tags) ->
  In (k, v) tags ->
  k <> "name" \/ s_name series = None ->
  to_dataframe series = Ok data ->
  Spec.column_holds data k (CStr v).
Proof.
  intros C I Tg D Ik Nk E.
  destruct (to_dataframe_steps _ C I E) as (data0 & times & D0 & _ & _ & _ & ->).
  destruct (DataFrame_new_Ok _ _ D0) as (_ & _ & _ & _ & _ & Da).
  pose proof (dropped_aligned cols (rows data0) (map Instant times) Da) as A0.
  destruct (@broadcast_tags_keeps _ (Spec.tags_of series) _ A0) as (A & _).
  revert A. unfold Spec.tags_of. rewrite Tg. intro A.
  pose proof (@broadcast_tags_holds _ tags _ k v D Ik A0) as B.
  destruct (s_name series) as [n|]; [|exact B].
  destruct Nk as [Nk|Nk]; [|discriminate Nk].
  now apply set_name_other_column.
Qed.

(** With a "time" column, the columns of the returned frame are the
    received columns other than "time", and the tag keys (a tag named
    "time" brings a "time" column back). *)
Theorem to_dataframe_columns (series : Series) (cols : list string)
    (data : DataFrame) (c : string) :
  s_columns series = Some cols ->
  In "time" cols ->
  to_dataframe series = Ok data ->
  In c (columns data)
  <-> (In c cols /\ c <> "time") \/ In c (map fst (Spec.tags_of series)).
Proof.
  intros C I E.
  destruct (to_dataframe_steps _ C I E) as (data0 & times & D & _ & _ & _ & ->).
  destruct (DataFrame_new_Ok _ _ D) as (_ & _ & _ & _ & _ & Da).
  destruct (@broadcast_tags_keeps _ (Spec.tags_of series) _
              (dropped_aligned cols (rows data0) (map Instant times) Da)) as (A & _).
  destruct (named_keeps series A) as (_ & -> & _).
  rewrite broadcast_tags_column_In. cbn [columns]. rewrite filter_In.
  split; intros [(Ic & Nc)|It]; auto; left; split; auto.
  - intros ->. discriminate Nc.
  - destruct (String.eqb_spec c "time"); [contradiction | reflexivity].
Qed.

End FrameResults.

(** ** Cells and failures of the conversion *)

Section FrameCells.
Context `{Datetimes}.

Lemma cell_at_nil_row (c : string) (cols : list string) : cell_at c cols [] = CNull.
Proof. destruct cols; reflexivity. Qed.

Lemma cell_at_nulls (c : string) (cols : list string) (n : nat) :
  cell_at c cols (repeat CNull n) = CNull.
Proof.
  revert n. induction cols as [|c0 cols IH]; intros [|n]; simpl; try reflexivity.
  destruct (String.eqb c0 c); [reflexivity | apply IH].
Qed.

Lemma cell_at_pad (c : string) (cols : list string) (w : nat) (row : list cell) :
  cell_at c cols (pad w row) = cell_at c cols row.
Proof.
  unfold pad. generalize (w - List.length row)%nat as n. intro n.
  revert row. induction cols as [|c0 cols IH]; intro row.
  - destruct (row ++ repeat CNull n)%list, row; reflexivity.
  - destruct row as [|x row]; simpl.
    + change (cell_at c (c0 :: cols) (repeat CNull n) = CNull). apply cell_at_nulls.
    + destruct (String.eqb c0 c); [reflexivity | apply IH].
Qed.

Lemma cell_at_drop (c key : string) (cols : list string) (row : list cell) :
  c <> key ->
  cell_at c (filter (fun l => negb (String.eqb l key)) cols) (drop_cells key cols row)
  = cell_at c cols row.
Proof.
  intro N. revert row. induction cols as [|c0 cols IH]; intro row; [now destruct row|].
  destruct row as [|x row]; simpl.
  - apply cell_at_nil_row.
  - destruct (String.eqb_spec c0 key) as [->|K]; simpl.
    + destruct (String.eqb_spec key c) as [->|_]; [now elim N | apply IH].
    + destruct (String.eqb c0 c); [reflexivity | apply IH].
Qed.

Lemma cell_at_assign (c key : string) (v : cell) (cols : list string) (row : list cell) :
  c <> key ->
  cell_at c cols (assign_cells key v cols row) = cell_at c cols row.
Proof.
  intro N. revert row. induction cols as [|c0 cols IH]; intro row; [now destruct row|].
  destruct row as [|x row]; simpl; [reflexivity|].
  destruct (String.eqb_spec c0 c) as [->|_]; [|apply IH].
  destruct (String.eqb_spec c key); [contradiction | reflexivity].
Qed.

Lemma cell_at_append (c key : string) (v : cell) (cols : list string) (row : list cell) :
  c <> key -> List.length row = List.length cols ->
  cell_at c (cols ++ [key]) (row ++ [v]) = cell_at c cols row.
Proof.
  intro N. revert row. induction cols as [|c0 cols IH]; intros [|x row] L;
    simpl in L; try discriminate; simpl.
  - destruct (String.eqb_spec key c) as [->|_]; [now elim N | reflexivity].
  - destruct (String.eqb c0 c); [reflexivity | apply IH; lia].
Qed.

Lemma setitem_same_column (c key : string) (v : cell) (data : DataFrame) :
  c <> key -> Spec.aligned data -> Spec.same_column c data (setitem data key v).
Proof.
  intros N A i row E. unfold setitem.
  destruct (contains data key); cbn [rows columns];
    rewrite nth_error_map, E; cbn [option_map]; eexists; (split; [reflexivity|]).
  - now apply cell_at_assign.
  - apply cell_at_append; [exact N|]. apply A. eapply nth_error_In; eassumption.
Qed.

Lemma broadcast_tags_same_column (c : string) (tags : list (string * string))
    (data : DataFrame) :
  ~ In c (map fst tags) -> Spec.aligned data ->
  Spec.same_column c data (broadcast_tags tags data).
Proof.
  revert data. induction tags as [|[k v] tags IH]; intros data N A.
  - intros i row E. eauto.
  - rewrite broadcast_tags_cons. simpl in N. intros i row E.
    destruct (@setitem_same_column c k (CStr v) data) with (i := i) (row := row)
      as (r1 & E1 & C1); [intros ->; tauto | exact A | exact E |].
    destruct (IH (setitem data k (CStr v))) with (i := i) (row := r1)
      as (r2 & E2 & C2); [tauto | now apply setitem_aligned | exact E1 |].
    exists r2. split; [exact E2 | congruence].
Qed.

Lemma DataFrame_new_rows values cols data :
  DataFrame_new values cols = Ok data ->
  exists w, rows data = map (pad w) values.
Proof.
  unfold DataFrame_new. destruct values as [|r values].
  - intro E; injection E as <-. exists 0%nat. reflexivity.
  - remember (r :: values) as vs. cbv zeta.
    destruct (Nat.eqb (width vs) (List.length cols)); [|discriminate].
    intro E; injection E as <-. eexists. reflexivity.
Qed.

Lemma set_name_same_column (c : string) (n : string) (data : DataFrame) :
  c <> "name" -> Spec.aligned data -> Spec.same_column c data (set_name data n).
Proof.
  intros N A. unfold set_name. destruct (contains data "name").
  - now apply setitem_same_column.
  - intros i row E. cbn [rows columns]. eauto.
Qed.

(** With a "time" column, the values survive the conversion: under every
    column other than "time" and the tag keys, and other than "name"
    when the series has a name entry, row i of the returned frame holds
    the cell that row i of the received values holds under that column
    (null where the received row is too short). *)
Theorem to_dataframe_keeps_values (series : Series) (cols : list string)
    (data : DataFrame) (c : string) (i : nat) (received : list cell) :
  s_columns series = Some cols ->
  In "time" cols ->
  to_dataframe series = Ok data ->
  c <> "time" ->
  ~ In c (map fst (Spec.tags_of series)) ->
  c <> "name" \/ s_name series = None ->
  nth_error (get_values series) i = Some received ->
  exists row,
    nth_error (rows data) i = Some row
    /\ cell_at c (columns data) row = cell_at c cols received.
Proof.
  intros C I E Nt Ng Nn R.
  destruct (to_dataframe_steps _ C I E) as (data0 & times & D & _ & _ & _ & ->).
  destruct (DataFrame_new_Ok _ _ D) as (_ & _ & _ & _ & _ & Da).
  destruct (DataFrame_new_rows _ _ D) as (w & Rw).
  pose (dropped := mkFrame (filter (fun l => negb (String.eqb l "time")) cols)
                           (map Instant times) None
                           (map (drop_cells "time" cols) (rows data0)) None).
  pose proof (dropped_aligned cols (rows data0) (map Instant times) Da) as A0.
  fold dropped in A0.
  destruct (@broadcast_tags_same_column c (Spec.tags_of series) dropped Ng A0
              i (drop_cells "time" cols (pad w received)))
    as (row & Er & Cr).
  { unfold dropped. cbn [rows]. rewrite Rw, !nth_error_map, R. reflexivity. }
  assert (Cv : cell_at c (columns (broadcast_tags (Spec.tags_of series) dropped)) row
               = cell_at c cols received).
  { rewrite Cr. unfold dropped. cbn [columns].
    rewrite (cell_at_drop cols (pad w received) Nt). apply cell_at_pad. }
  fold dropped. destruct (s_name series) as [n|].
  - destruct Nn as [Nn|Nn]; [|discriminate Nn].
    destruct (@broadcast_tags_keeps _ (Spec.tags_of series) dropped A0) as (A & _).
    destruct (@set_name_same_column c n _ Nn A i row Er) as (row' & Er' & Cr').
    exists row'. split; [exact Er' | congruence].
  - exists row. split; [exact Er | exact Cv].
Qed.

(** Rows of a width other than the number of columns are refused: when
    the longest row of a non-empty values list has not as many cells as
    there are columns, [to_dataframe] raises ValueError, with or without
    a "time" column. *)
Theorem to_dataframe_width_mismatch (series : Series) (cols : list string) :
  s_columns series = Some cols ->
  get_values series <> [] ->
  width (get_values series) <> List.length cols ->
  exists msg, to_dataframe series = Raise (ValueError msg).
Proof.
  intros C Nv W. unfold to_dataframe. rewrite C. cbn [field bind].
  unfold DataFrame_new. destruct (get_values series) as [|r values]; [now elim Nv|].
  remember (r :: values) as vs. cbv zeta.
  destruct (Nat.eqb_spec (width vs) (List.length cols)); [contradiction|].
  cbn [bind]. eexists. reflexivity.
Qed.

(** Two columns labelled "time" cannot be converted: [to_dataframe]
    raises ValueError when the label occurs more than once. *)
Theorem to_dataframe_duplicate_time (series : Series) (cols : list string)
    (data0 : DataFrame) :
  s_columns series = Some cols ->
  DataFrame_new (get_values series) cols = Ok data0 ->
  (2 <= count_occ string_dec cols "time")%nat ->
  exists msg, to_dataframe series = Raise (ValueError msg).
Proof.
  intros C D Two. unfold to_dataframe. rewrite C. cbn [field bind]. rewrite D. cbn [bind].
  destruct (DataFrame_new_Ok _ _ D) as (Dc & _).
  assert (T : contains data0 "time" = true).
  { apply contains_In. rewrite Dc. apply (count_occ_In string_dec). lia. }
  rewrite T. cbn [negb]. unfold getitem. rewrite Dc.
  destruct (count_occ string_dec cols "time") as [|[|n]]; [lia | lia |].
  cbn [bind to_datetime_of]. eexists. reflexivity.
Qed.

(** A time column that pandas.to_datetime refuses fails the conversion
    with the exception of to_datetime. *)
Theorem to_dataframe_unparseable_time (series : Series) (cols : list string)
    (data0 : DataFrame) (e : exn) :
  s_columns series = Some cols ->
  DataFrame_new (get_values series) cols = Ok data0 ->
  count_occ string_dec cols "time" = 1%nat ->
  to_datetime (map (cell_at "time" cols) (rows data0)) = Raise e ->
  to_dataframe series = Raise e.
Proof.
  intros C D One P. unfold to_dataframe. rewrite C. cbn [field bind]. rewrite D. cbn [bind].
  destruct (DataFrame_new_Ok _ _ D) as (Dc & _).
  assert (T : contains data0 "time" = true).
  { apply contains_In. rewrite Dc. apply (count_occ_In string_dec). lia. }
  rewrite T. cbn [negb]. unfold getitem. rewrite Dc, One.
  cbn [bind to_datetime_of]. rewrite P. reflexivity.
Qed.

End FrameCells.

(** ** The further properties at work on the sample environment *)

Lemma init_builds_client_run :
  exists self,
    @init library (secrets_serving 200 (Some credentials)) "usdf_efd" = Ok self
    /\ _auth self = ("reader", "secret")
    /\ _databaseName self = "efd"
    /\ _databaseUrl self = "https://db.example.org/influxdb"
    /\ forall q,
         query_request self q
         = mkRequest "https://db.example.org/influxdb/query"
                     [("db", "efd"); ("q", q)]
                     (Some ("reader", "secret")) (ConnectRead 30 120).
Proof.
  apply (@init_builds_client library (secrets_serving 200 (Some credentials)) "usdf_efd"
           credentials "reader" "secret" "db.example.org" "/influxdb");
    reflexivity.
Defined.

Lemma init_missing_key_run :
  exists missing,
    @init library (secrets_serving 200 (Some incomplete_credentials)) "usdf_efd"
    = Raise (KeyError missing)
    /\ In missing ["username"; "password"; "host"; "path"]
    /\ ~ In missing (map fst incomplete_credentials).
Proof.
  apply (@init_missing_key library (secrets_serving 200 (Some incomplete_credentials))
           "usdf_efd" incomplete_credentials "path").
  - reflexivity.
  - simpl. tauto.
  - simpl. intros [E|[E|[E|[]]]]; discriminate E.
Defined.

Lemma get_auth_failures_run :
  (exists detail,
      @requests_get Credentials (always (Failed "timed out")) (@creds_request library "usdf_efd")
      = Failed detail
      /\ RequestException "timed out" = RequestException detail)
  \/ (@requests_get Credentials (always (Failed "timed out")) (@creds_request library "usdf_efd")
      = Responded (mkResponse 200 None)
      /\ RequestException "timed out" = JSONDecodeError)
  \/ (exists status body,
        @requests_get Credentials (always (Failed "timed out"))
          (@creds_request library "usdf_efd")
        = Responded (mkResponse status body)
        /\ status <> 200%Z
        /\ RequestException "timed out"
           = RuntimeError ("Could not connect to " ++ @creds_url library "usdf_efd") None).
Proof.
  apply (@get_auth_failures library (always (Failed "timed out")) "usdf_efd"
           (RequestException "timed out")).
  reflexivity.
Defined.


Lemma query_Ok_iff_run :
  @query (serving 204 empty_document) client "SHOW DATABASES" = Ok empty_document.
Proof.
  apply (proj2 (@query_Ok_iff (serving 204 empty_document) client "SHOW DATABASES"
                  empty_document)).
  exists 204%Z. split; [reflexivity | lia].
Defined.

Lemma get_fields_names_run :
  @get_fields (serving 200 schema_document) client "lsst.sal.ESS.temperature"
  = Ok [CStr "time"; CStr "temperature"; CStr "salIndex"; CStr "state"; CStr "flag"].
Proof.
  apply (@get_fields_names (serving 200 schema_document) client
           "lsst.sal.ESS.temperature" schema_document schema_entries); reflexivity.
Defined.

Lemma get_schema_dtypes_unknown_topic_run :
  @get_schema_dtypes (serving 200 empty_document) client "no.such.topic"
  = Raise (KeyError "series")
  /\ @get_fields (serving 200 empty_document) client "no.such.topic"
     = Raise (KeyError "series").
Proof.
  apply (@get_schema_dtypes_unknown_topic (serving 200 empty_document) client
           "no.such.topic" empty_document (mkStatement None) []); reflexivity.
Defined.

Lemma get_schema_dtypes_bad_row_run :
  exists msg,
    @get_schema_dtypes (serving 200 malformed_schema_document) client "topic"
    = Raise (ValueError msg).
Proof.
  apply (@get_schema_dtypes_bad_row (serving 200 malformed_schema_document) client
           "topic" malformed_schema_document
           [[CStr "temperature"; CStr "float"];
            [CStr "salIndex"; CStr "integer"; CStr "extra"]]
           [CStr "salIndex"; CStr "integer"; CStr "extra"]).
  - reflexivity.
  - reflexivity.
  - right. left. reflexivity.
  - simpl. discriminate.
Defined.

Lemma select_time_series_transport_failure_run :
  @select_time_series library datetimes unreachable client "topic"
    (Some ["a"; "b"]) (Some "2021-01-01T00:00:00.000") None (Some 2%Z)
  = Raise (RuntimeError
      ("Could not read data from database with query: "
       ++ @Spec.select_query library "topic" (Some ["a"; "b"])
            (Some "2021-01-01T00:00:00.000") None (Some 2%Z))
      (Some (RequestException "Connection refused"))).
Proof.
  apply (@select_time_series_transport_failure library datetimes unreachable client
           "topic" (Some ["a"; "b"]) (Some "2021-01-01T00:00:00.000") None (Some 2%Z)
           "Connection refused").
  reflexivity.
Defined.

Lemma select_time_series_first_series_run :
  @select_time_series library datetimes (serving 200 two_series_document) client
    "topic" None None None None
  = @to_dataframe datetimes tagged_series.
Proof.
  apply (@select_time_series_first_series library datetimes
           (serving 200 two_series_document) client "topic" None None None None
           two_series_document (mkStatement (Some [tagged_series; untimed_series]))
           [mkStatement None] tagged_series [untimed_series]); reflexivity.
Defined.

Lemma select_time_series_no_results_run :
  @select_time_series library datetimes (serving 200 (mkDocument (Some []))) client
    "topic" None None None None
  = Raise IndexError.
Proof.
  apply (proj2 (@select_time_series_no_results library datetimes
                  (serving 200 (mkDocument (Some []))) client "topic"
                  None None None None (mkDocument (Some [])) eq_refl)).
  reflexivity.
Defined.

Lemma to_dataframe_aligned_run :
  exists data,
    @to_dataframe datetimes two_tag_series = Ok data
    /\ @Spec.aligned datetimes data
    /\ @nrows datetimes data = List.length (rows data)
    /\ List.length (rows data) = 2%nat.
Proof.
  eexists. split; [reflexivity|].
  apply (@to_dataframe_aligned datetimes two_tag_series). reflexivity.
Defined.

Lemma to_dataframe_time_index_run :
  exists data,
    @to_dataframe datetimes named_column_series = Ok data
    /\ index data
       = [@Instant datetimes "2021-01-01T00:00:00Z"; @Instant datetimes "2021-01-01T00:00:01Z"]
    /\ index_name data = None
    /\ name data = None
    /\ @Spec.column_holds datetimes data "name" (CStr "topic").
Proof.
  eexists.
  destruct (@to_dataframe_time_index datetimes named_column_series ["time"; "name"] _
              eq_refl (or_introl eq_refl) eq_refl) as (_ & In_ & _ & Col).
  destruct (Col (or_introl eq_refl)) as (Nm & Hn).
  split; [reflexivity|]. split; [reflexivity|]. split; [exact In_|].
  split; [exact Nm | exact (Hn "topic" eq_refl)].
Defined.

Lemma to_dataframe_all_tags_run :
  exists data,
    @to_dataframe datetimes two_tag_series = Ok data
    /\ @Spec.column_holds datetimes data "site" (CStr "summit").
Proof.
  eexists. split; [reflexivity|].
  apply (@to_dataframe_all_tags datetimes two_tag_series ["time"; "v"; "site"]
           [("site", "summit"); ("a", "x")] "site" "summit").
  - reflexivity.
  - left. reflexivity.
  - reflexivity.
  - simpl. repeat constructor; simpl; [intros [E|[]]; discriminate E | tauto].
  - left. reflexivity.
  - left. discriminate.
  - reflexivity.
Defined.

Lemma to_dataframe_columns_run :
  exists data,
    @to_dataframe datetimes two_tag_series = Ok data
    /\ (In "a" (columns data)
        <-> (In "a" ["time"; "v"; "site"] /\ "a" <> "time")
            \/ In "a" (map fst (Spec.tags_of two_tag_series))).
Proof.
  eexists. split; [reflexivity|].
  apply (@to_dataframe_columns datetimes two_tag_series ["time"; "v"; "site"]).
  - reflexivity.
  - left. reflexivity.
  - reflexivity.
Defined.

Lemma to_dataframe_keeps_values_run :
  exists data row,
    @to_dataframe datetimes two_tag_series = Ok data
    /\ nth_error (rows data) 1 = Some row
    /\ cell_at "v" (columns data) row = CFloat "2.5".
Proof.
  eexists.
  destruct (@to_dataframe_keeps_values datetimes two_tag_series ["time"; "v"; "site"] _
              "v" 1 [CStr "2021-01-01T00:00:01Z"; CFloat "2.5"]
              eq_refl (or_introl eq_refl) eq_refl) as (row & E & C).
  - discriminate.
  - simpl. intros [E|[E|[]]]; discriminate E.
  - left. discriminate.
  - reflexivity.
  - exists row. split; [reflexivity|]. split; [exact E | exact C].
Defined.

Lemma to_dataframe_width_mismatch_run :
  exists msg, @to_dataframe datetimes wide_series = Raise (ValueError msg).
Proof.
  apply (@to_dataframe_width_mismatch datetimes wide_series ["v"]).
  - reflexivity.
  - discriminate.
  - simpl. discriminate.
Defined.

Lemma to_dataframe_duplicate_time_run :
  exists msg, @to_dataframe datetimes double_time_series = Raise (ValueError msg).
Proof.
  eapply (@to_dataframe_duplicate_time datetimes double_time_series ["time"; "time"]).
  - reflexivity.
  - reflexivity.
  - simpl. lia.
Defined.

Lemma to_dataframe_unparseable_time_run :
  @to_dataframe datetimes unparseable_series
  = Raise (ValueError "Unknown datetime string format, unable to parse").
Proof.
  eapply (@to_dataframe_unparseable_time datetimes unparseable_series ["time"; "v"]).
  - reflexivity.
  - reflexivity.
  - reflexivity.
  - reflexivity.
Defined.
